(** * proxy_io: the host side of the serial multiplexer

    A shallow embedding of [src/proxy_io/serial_host.py]: the response
    classifier [SharedSerial.clean_response], the transport worker
    [SerialInterface] with its run loop, the class-level worker table
    [SharedSerial.serial_interfaces], and the per-service channel
    [SharedSerial] with [handle_command]; and of the pure parts of the
    firmware in [src/circuitpython_mcu/code.py]: the hexadecimal codec,
    the alive LED and the relay bank.

    Conventions of the embedding.
    - A Python [str] whose code points are below 256 is a [string], one
      [ascii] per code point.
    - Python exceptions are values of [exn]; a computation that may raise
      returns a [result].
    - Python objects that are shared by reference ([Queue], the worker
      thread object) live in a store and are named by their index in it.
    - A [dict] is a [gmap]. *)

From Stdlib Require Import Ascii String ZArith DecimalString.
From stdpp Require Import base option list gmap strings countable.

Open Scope string_scope.
Open Scope nat_scope.
Open Scope list_scope.
Open Scope stdpp_scope.

(** ** Exceptions and results *)

Inductive exn :=
  | KeyError (key : string)
  | IndexError
  | TypeError
  | AttributeError.

Inductive result (A : Type) :=
  | Ok (a : A)
  | Raise (e : exn).
Arguments Ok {A} a.
Arguments Raise {A} e.

(** Sequencing: the first exception raised ends the computation. *)
#[global] Instance result_ret : MRet result := λ A a, Ok a.
#[global] Instance result_bind : MBind result := λ A B k m,
  match m with
  | Ok a => k a
  | Raise e => Raise e
  end.

(** ** Strings the way Python sees them *)

Module Py.

(** [str.isspace] on one code point below 256: TAB..CR, FS..US, SPACE,
    NEL and NBSP. *)
Definition isspace (c : ascii) : bool :=
  let n := nat_of_ascii c in
  ((9 <=? n) && (n <=? 13)) || ((28 <=? n) && (n <=? 32))
  || (n =? 133) || (n =? 160).

(** The scanner behind [str.split()]: [word] holds the characters of
    the token being read, most recent first. *)
Definition flush (word : list ascii) (rest : list string) : list string :=
  match word with
  | [] => rest
  | _ => string_of_list_ascii (rev word) :: rest
  end.

Fixpoint split_from (word : list ascii) (s : string) : list string :=
  match s with
  | EmptyString => flush word []
  | String c s' =>
      if isspace c then flush word (split_from [] s')
      else split_from (c :: word) s'
  end.

(** [s.split()] *)
Definition split (s : string) : list string := split_from [] s.

(** [sep.join(parts)] *)
Fixpoint join (sep : string) (parts : list string) : string :=
  match parts with
  | [] => ""
  | [p] => p
  | p :: ps => p +:+ sep +:+ join sep ps
  end.

(** [x in parts] for a list of strings *)
Definition contains (x : string) (parts : list string) : bool :=
  bool_decide (x ∈ parts).

(** Iterating over a [str] yields its characters as strings of length one. *)
Definition chars (s : string) : list string :=
  (λ c, String c EmptyString) <$> list_ascii_of_string s.

End Py.

(** ** The verbs *)

Inductive ConnectionType := SPI | DIO | RELAY.

Inductive SerialCommand :=
  | VERSION | HELP
  | DIO_DIRECTION | DIO_LIST | DIO_CLEAR | DIO_SET | DIO_READ
  | RELAY_LIST | RELAY_SET | RELAY_CLEAR
  | SPI_SEND | SPI_RECEIVE
  | ERROR | EXCEPTION.

#[global] Instance ConnectionType_eq_dec : EqDecision ConnectionType.
Proof. solve_decision. Defined.

#[global] Instance SerialCommand_eq_dec : EqDecision SerialCommand.
Proof. solve_decision. Defined.

Definition ConnectionType_index (s : ConnectionType) : nat :=
  match s with SPI => 0 | DIO => 1 | RELAY => 2 end.

Definition ConnectionType_of_index (n : nat) : option ConnectionType :=
  match n with
  | 0 => Some SPI | 1 => Some DIO | 2 => Some RELAY | _ => None
  end.

#[global] Instance ConnectionType_countable : Countable ConnectionType.
Proof.
  apply (inj_countable ConnectionType_index ConnectionType_of_index).
  by intros [].
Defined.

(** [SerialCommand.members], in declaration order. *)
Definition members : list SerialCommand :=
  [VERSION; HELP; DIO_DIRECTION; DIO_LIST; DIO_CLEAR; DIO_SET; DIO_READ;
   RELAY_LIST; RELAY_SET; RELAY_CLEAR; SPI_SEND; SPI_RECEIVE; ERROR; EXCEPTION].

(** The verbs of the wire protocol: every member but the two
    classification kinds. *)
Definition verbs : list SerialCommand :=
  [VERSION; HELP; DIO_DIRECTION; DIO_LIST; DIO_CLEAR; DIO_SET; DIO_READ;
   RELAY_LIST; RELAY_SET; RELAY_CLEAR; SPI_SEND; SPI_RECEIVE].

(** [member.name] *)
Definition name (c : SerialCommand) : string :=
  match c with
  | VERSION => "VERSION" | HELP => "HELP"
  | DIO_DIRECTION => "DIO_DIRECTION" | DIO_LIST => "DIO_LIST"
  | DIO_CLEAR => "DIO_CLEAR" | DIO_SET => "DIO_SET" | DIO_READ => "DIO_READ"
  | RELAY_LIST => "RELAY_LIST" | RELAY_SET => "RELAY_SET"
  | RELAY_CLEAR => "RELAY_CLEAR"
  | SPI_SEND => "SPI_SEND" | SPI_RECEIVE => "SPI_RECEIVE"
  | ERROR => "ERROR" | EXCEPTION => "EXCEPTION"
  end.

(** [SerialCommand[key]]: the member of that name, [KeyError] otherwise. *)
Definition by_name (key : string) : result SerialCommand :=
  match list_find (λ c, name c = key) members with
  | Some (_, c) => Ok c
  | None => Raise (KeyError key)
  end.

(** ** Values handed around by the channel *)

(** What travels through a response queue.  The worker puts lists of
    decoded lines, but also (on a failed write) a bare [str], and
    [handle_command] substitutes the empty [str] when its queue stays
    empty. *)
Inductive raw_response :=
  | Lines (lines : list string)
  | Text (s : string).

(** The elements of a raw response as indexing, slicing, [len] and
    iteration see them. *)
Definition items (r : raw_response) : list string :=
  match r with
  | Lines lines => lines
  | Text s => Py.chars s
  end.

(** The values stored in a response dict. *)
Inductive value :=
  | VCommand (c : SerialCommand)
  | VStr (s : string)
  | VDict (d : gmap string string).

(** ** The response classifier *)

(** The dict literal [{"command": command, "data": data}]. *)
Definition envelope (command : SerialCommand) (data : value)
  : gmap string value :=
  <[ "data" := data ]> {[ "command" := VCommand command ]}.

Definition LF : string := String "010" "".

(** [SharedSerial.clean_response].  The two assignments of the [ERROR:]
    branch are kept as [after_error]; the [if]/[else] on [EXCEPTION:]
    that follows assigns both variables again on either path. *)
Definition clean_response (text_response : raw_response)
  : result (gmap string value) :=
  '(command, data) ←
    match items text_response with
    | [] => Ok (ERROR, VDict {[ "error" := "No response from MCU" ]})
    | first :: _ =>
        let response_fields := Py.split first in
        let after_error :=
          if Py.contains "ERROR:" (take 2 response_fields)
          then Some (ERROR, VDict {[ "error" := first ]})
          else None in
        if Py.contains "EXCEPTION:" (take 2 response_fields)
        then Ok (EXCEPTION, VDict {[ "exception" := first ]})
        else
          match response_fields with
          | [] => Raise IndexError
          | field0 :: fields =>
              command ← by_name field0;
              Ok (command, VStr (Py.join " " fields))
          end
    end;
  let response := envelope command data in
  Ok (if 1 <? length (items text_response)
      then <[ "extension" := VStr (Py.join LF (tail (items text_response))) ]> response
      else response).

(** ** Requests and the transport *)

(** The [data] of a request: [DigitalIO] and [RelayIO] pass text,
    [SpiIo] passes [bytes]. *)
Inductive payload :=
  | PStr (s : string)
  | PBytes (b : list Init.Byte.byte).

(** The message dict put on the worker's input queue. *)
Record cmd_dict := {
  service : ConnectionType;
  command : SerialCommand;
  data : payload;
}.

(** [text + data] for a [str] on the left: defined for a [str] on the
    right only. *)
Definition str_add (text : string) (data : payload) : result string :=
  match data with
  | PStr s => Ok (text +:+ s)
  | PBytes _ => Raise TypeError
  end.

(** [str(service)], the key shown by a [KeyError] on the routing table. *)
Definition ConnectionType_str (s : ConnectionType) : string :=
  match s with
  | SPI => "ConnectionType.SPI"
  | DIO => "ConnectionType.DIO"
  | RELAY => "ConnectionType.RELAY"
  end.

(** What the serial connection does during one pass of the worker loop.
    [port_open = false] makes [write] raise [PortNotOpenError].  The
    [k]-th test of [in_waiting] after the write finds nothing
    ([None]), or finds bytes and [readlines()] then returns the given
    lines, already decoded.  [idle_lines] is what [readlines()]
    returns on a pass that found the input queue empty. *)
Record link := {
  port_open : bool;
  in_waiting : nat → option (list string);
  idle_lines : list string;
}.

(** The store of [Queue] objects: a queue is named by its index, and
    holds its pending items oldest first. *)
Abbreviation queues := (list (list raw_response)).

(** [q.put(item)] *)
Definition put (q : nat) (item : raw_response) (qs : queues) : queues :=
  alter (λ pending, pending ++ [item]) q qs.

Definition CRLF : string := String "013" (String "010" "").

(** ** The transport worker *)

Module SerialInterface.

(** Where the thread is: not yet started; inside the [with] block of
    [run], holding the connection; or finished, the connection
    released, either because the loop test failed ([None]) or because
    an exception escaped [run]. *)
Inductive thread_state :=
  | Unstarted
  | Running
  | Terminated (cause : option exn).

(** The attributes of the source, then two observers: [written] logs
    the lines handed to [write], [slept] counts the calls of
    [time.sleep(0.1)]. *)
Record t := mk {
  serial_port : string;
  alive : bool;
  input_q : list cmd_dict;
  service_qs : gmap ConnectionType nat;
  next_response_q : option nat;
  thread : thread_state;
  written : list string;
  slept : nat;
}.

Definition set_alive (b : bool) (self : t) : t :=
  mk (serial_port self) b (input_q self) (service_qs self)
     (next_response_q self) (thread self) (written self) (slept self).
Definition set_input_q (q : list cmd_dict) (self : t) : t :=
  mk (serial_port self) (alive self) q (service_qs self)
     (next_response_q self) (thread self) (written self) (slept self).
Definition set_service_qs (m : gmap ConnectionType nat) (self : t) : t :=
  mk (serial_port self) (alive self) (input_q self) m
     (next_response_q self) (thread self) (written self) (slept self).
Definition set_next_response_q (q : option nat) (self : t) : t :=
  mk (serial_port self) (alive self) (input_q self) (service_qs self)
     q (thread self) (written self) (slept self).
Definition set_thread (th : thread_state) (self : t) : t :=
  mk (serial_port self) (alive self) (input_q self) (service_qs self)
     (next_response_q self) th (written self) (slept self).
Definition set_written (ls : list string) (self : t) : t :=
  mk (serial_port self) (alive self) (input_q self) (service_qs self)
     (next_response_q self) (thread self) ls (slept self).
Definition set_slept (n : nat) (self : t) : t :=
  mk (serial_port self) (alive self) (input_q self) (service_qs self)
     (next_response_q self) (thread self) (written self) n.

(** [__init__] *)
Definition init (serial_port : string) : t :=
  mk serial_port false [] ∅ None Unstarted [] 0.

(** [register] *)
Definition register (service : ConnectionType) (service_q : nat) (self : t) : t :=
  set_service_qs (<[ service := service_q ]> (service_qs self)) self.

(** [start()] followed by the head of [run]: the flag is raised and
    the connection opened. *)
Definition start (self : t) : t :=
  set_thread Running (set_alive true self).

(** The [for _interval in range(20)] loop of [run], entered at
    interval [k] with [remaining] intervals to go.  Returns the
    response text, or the exception raised, and the number of sleeps. *)
Fixpoint poll (env : link) (serial_command_str : string)
    (k remaining : nat) : result (list string) * nat :=
  match remaining with
  | 0 => (Ok ["TIMEOUT"], 0)
  | S remaining' =>
      match in_waiting env k with
      | Some response_text =>
          match response_text with
          | [] => (Raise IndexError, 0)
          | first :: others =>
              if decide (first = serial_command_str)
              then (Ok others, 0)
              else (Ok response_text, 0)
          end
      | None =>
          let '(r, n) := poll env serial_command_str (S k) remaining' in
          (r, S n)
      end
  end.

(** The body of [while self.alive]: one pass.  The state reached is
    returned together with the exception that escaped, if any. *)
Definition run_pass (env : link) (qs : queues) (self : t)
  : queues * t * option exn :=
  match input_q self with
  | [] =>
      let response_text := idle_lines env in
      match response_text with
      | [] => (qs, self, None)
      | _ =>
          match next_response_q self with
          | None => (qs, self, Some AttributeError)
          | Some q => (put q (Lines response_text) qs, self, None)
          end
      end
  | cmd_dict :: pending =>
      let self := set_input_q pending self in
      match service_qs self !! service cmd_dict with
      | None =>
          (qs, self, Some (KeyError (ConnectionType_str (service cmd_dict))))
      | Some q =>
          let self := set_next_response_q (Some q) self in
          match str_add (name (command cmd_dict) +:+ " ") (data cmd_dict) with
          | Raise e => (qs, self, Some e)
          | Ok line =>
              let serial_command_str := line +:+ CRLF in
              if port_open env then
                let self := set_written (written self ++ [serial_command_str]) self in
                let '(outcome, n) := poll env serial_command_str 0 20 in
                let self := set_slept (slept self + n) self in
                match outcome with
                | Raise e => (qs, self, Some e)
                | Ok response_text =>
                    (put q (Lines response_text) qs, self, None)
                end
              else
                let response_text :=
                  Text "ERROR: Cannot send DIO command as serial port not open." in
                (put q response_text qs, self, None)
          end
      end
  end.

(** One turn of the thread: the loop test, then a pass.  An exception
    that escapes the pass ends the thread; the flag is left as it was. *)
Definition step (env : link) (qs : queues) (self : t) : queues * t :=
  match thread self with
  | Running =>
      if alive self then
        match run_pass env qs self with
        | (qs', self', None) => (qs', self')
        | (qs', self', Some e) => (qs', set_thread (Terminated (Some e)) self')
        end
      else (qs, set_thread (Terminated None) self)
  | _ => (qs, self)
  end.

(** [close]: the flag is cleared; the thread sees it at its next loop
    test. *)
Definition close (self : t) : t := set_alive false self.

(** [close_service] *)
Definition close_service (service : ConnectionType) (self : t) : t :=
  let self := set_service_qs (delete service (service_qs self)) self in
  if decide (service_qs self = ∅) then close self else self.

End SerialInterface.

(** ** The process: queues, workers and the worker table *)

(** [interfaces] is the store of [SerialInterface] objects, named by
    index; [serial_interfaces] is the class attribute of [SharedSerial],
    from port to worker. *)
Record world := {
  queue_store : queues;
  interfaces : list SerialInterface.t;
  serial_interfaces : gmap string nat;
}.

Definition empty_world : world := Build_world [] [] ∅.

(** ** The service channel *)

Module SharedSerial.

Record t := mk {
  serial_port : string;
  service : ConnectionType;
  response_q : nat;
  serial_interface : nat;
}.

(** [obtain_serial_interface] *)
Definition obtain_serial_interface (serial_port : string)
    (service : ConnectionType) (response_q : nat) (σ : world)
  : result (nat * world) :=
  let σ :=
    match serial_interfaces σ !! serial_port with
    | Some _ => σ
    | None =>
        let serial_interface :=
          SerialInterface.start (SerialInterface.init serial_port) in
        Build_world (queue_store σ)
          (interfaces σ ++ [serial_interface])
          (<[ serial_port := length (interfaces σ) ]> (serial_interfaces σ))
    end in
  match serial_interfaces σ !! serial_port with
  | None => Raise (KeyError serial_port)
  | Some w =>
      Ok (w, Build_world (queue_store σ)
               (alter (SerialInterface.register service response_q) w (interfaces σ))
               (serial_interfaces σ))
  end.

(** [__init__]: a fresh response queue, then the worker of the port. *)
Definition new (serial_port : string) (service : ConnectionType) (σ : world)
  : result (t * world) :=
  let response_q := length (queue_store σ) in
  let σ := Build_world (queue_store σ ++ [[]]) (interfaces σ)
             (serial_interfaces σ) in
  '(serial_interface, σ) ←
    obtain_serial_interface serial_port service response_q σ;
  Ok (mk serial_port service response_q serial_interface, σ).

(** [self.serial_interface.input_q.put(message_to_send)] *)
Definition submit (self : t) (message_to_send : cmd_dict) (σ : world) : world :=
  Build_world (queue_store σ)
    (alter (λ w, SerialInterface.set_input_q
                   (SerialInterface.input_q w ++ [message_to_send]) w)
           (serial_interface self) (interfaces σ))
    (serial_interfaces σ).

(** The worker thread takes one turn while the caller waits. *)
Definition worker_turn (env : link) (w : nat) (σ : world) : world :=
  match interfaces σ !! w with
  | None => σ
  | Some worker =>
      let '(qs, worker) := SerialInterface.step env (queue_store σ) worker in
      Build_world qs (<[ w := worker ]> (interfaces σ)) (serial_interfaces σ)
  end.

(** [self.response_q.get(True, 10)]: the oldest item, or [None] for
    [queue.Empty] once the ten seconds are over. *)
Definition get (q : nat) (σ : world) : option raw_response * world :=
  match queue_store σ !! q with
  | Some (item :: pending) =>
      (Some item,
       Build_world (<[ q := pending ]> (queue_store σ)) (interfaces σ)
         (serial_interfaces σ))
  | _ => (None, σ)
  end.

(** [handle_command].  Both exits of the final [if] return [cleaned]. *)
Definition handle_command (env : link) (self : t)
    (command : SerialCommand) (data : payload) (σ : world)
  : world * result (gmap string value) :=
  let message_to_send := Build_cmd_dict (service self) command data in
  let σ := submit self message_to_send σ in
  let σ := worker_turn env (serial_interface self) σ in
  let '(got, σ) := get (response_q self) σ in
  let raw_response :=
    match got with
    | Some item => item
    | None => Text ""
    end in
  (σ,
   cleaned ← clean_response raw_response;
   if bool_decide ("error" ∈ dom cleaned) || bool_decide ("exception" ∈ dom cleaned)
   then Ok cleaned
   else Ok cleaned).

(** [close_service] *)
Definition close_service (self : t) (service : ConnectionType) (σ : world)
  : result world :=
  match serial_interfaces σ !! serial_port self with
  | None => Raise (KeyError (serial_port self))
  | Some w =>
      Ok (Build_world (queue_store σ)
            (alter (SerialInterface.close_service service) w (interfaces σ))
            (serial_interfaces σ))
  end.

End SharedSerial.

(** ** The SPI bridge *)

Module SpiIo.

(** [SpiIo.__init__]: a channel for the [SPI] service. *)
Definition new (interface : string) (σ : world)
  : result (SharedSerial.t * world) :=
  SharedSerial.new interface SPI σ.

(** [send_message] *)
Definition send_message (env : link) (shared_serial : SharedSerial.t)
    (message : list Init.Byte.byte) (σ : world)
  : world * result (gmap string value) :=
  SharedSerial.handle_command env shared_serial SPI_SEND (PBytes message) σ.

End SpiIo.

(** ** Vocabulary of the statements *)

(** The shape of [data] by kind: a mapping with a single key for the
    kinds [ERROR] and [EXCEPTION], a plain string for a verb. *)
Definition single_key_mapping (v : value) : Prop :=
  ∃ key text, v = VDict {[ key := text ]}.

Definition plain_string (v : value) : Prop :=
  ∃ text, v = VStr text.

Definition data_by_kind (response : gmap string value) : Prop :=
  ∀ kind d,
    response !! "command" = Some (VCommand kind) →
    response !! "data" = Some d →
    (kind = ERROR ∨ kind = EXCEPTION → single_key_mapping d) ∧
    (kind ∈ verbs → plain_string d).

(** A channel at rest: its worker is running with the flag raised and
    nothing pending, the worker routes the channel's service to the
    channel's own queue, and that queue is empty. *)
Definition idle (σ : world) (self : SharedSerial.t) : bool :=
  match interfaces σ !! SharedSerial.serial_interface self with
  | None => false
  | Some w =>
      match SerialInterface.thread w with
      | SerialInterface.Running => true
      | _ => false
      end
      && SerialInterface.alive w
      && match SerialInterface.input_q w with [] => true | _ => false end
      && bool_decide (SerialInterface.service_qs w !! SharedSerial.service self
                      = Some (SharedSerial.response_q self))
      && match queue_store σ !! SharedSerial.response_q self with
         | Some [] => true
         | _ => false
         end
  end.

(** ** Histories of a process *)

(** What a program does with channels: it creates one, closes a
    service through one, or sends a command through one. *)
Inductive op :=
  | New (serial_port : string) (service : ConnectionType)
  | CloseService (self : SharedSerial.t) (service : ConnectionType)
  | HandleCommand (env : link) (self : SharedSerial.t)
      (command : SerialCommand) (data : payload).

(** The process after one operation; an operation that raises leaves
    the process as it was. *)
Definition perform (σ : world) (o : op) : world :=
  match o with
  | New serial_port service =>
      match SharedSerial.new serial_port service σ with
      | Ok (_, σ') => σ'
      | Raise _ => σ
      end
  | CloseService self service =>
      match SharedSerial.close_service self service σ with
      | Ok σ' => σ'
      | Raise _ => σ
      end
  | HandleCommand env self command data =>
      (SharedSerial.handle_command env self command data σ).1
  end.

Definition perform_all (σ : world) (ops : list op) : world :=
  foldl perform σ ops.

(** No two distinct worker objects of one port have the flag raised. *)
Definition one_live_worker_per_port (σ : world) : Prop :=
  ∀ w1 w2 worker1 worker2,
    interfaces σ !! w1 = Some worker1 →
    interfaces σ !! w2 = Some worker2 →
    SerialInterface.serial_port worker1 = SerialInterface.serial_port worker2 →
    SerialInterface.alive worker1 = true →
    SerialInterface.alive worker2 = true →
    w1 = w2.

(** Updates of one worker that keep its port. *)
Definition keeps_port (f : SerialInterface.t → SerialInterface.t) : Prop :=
  ∀ w, SerialInterface.serial_port (f w) = SerialInterface.serial_port w.

(** The worker table and the store of workers agree: the table sends a
    port to a worker exactly when that worker was made for the port. *)
Definition coherent (σ : world) : Prop :=
  ∀ serial_port w,
    serial_interfaces σ !! serial_port = Some w ↔
    (SerialInterface.serial_port <$> interfaces σ) !! w = Some serial_port.

(** ** Worked configurations *)

(** One [DIO] channel on port [COM4], created in an empty process. *)
Definition dio_channel : SharedSerial.t := SharedSerial.mk "COM4" DIO 0 0.

Definition dio_world : world :=
  match SharedSerial.new "COM4" DIO empty_world with
  | Ok (_, σ) => σ
  | Raise _ => empty_world
  end.

(** The same process after the channel has closed its service. *)
Definition closed_world : world :=
  match SharedSerial.close_service dio_channel DIO dio_world with
  | Ok σ => σ
  | Raise _ => dio_world
  end.

(** One [SPI] channel on port [COM4], created by [SpiIo]. *)
Definition spi_channel : SharedSerial.t := SharedSerial.mk "COM4" SPI 0 0.

Definition spi_world : world :=
  match SpiIo.new "COM4" empty_world with
  | Ok (_, σ) => σ
  | Raise _ => empty_world
  end.

(** Two channels, [DIO] then [SPI], created on port [COM4]. *)
Definition two_services : list op := [New "COM4" DIO; New "COM4" SPI].

Definition second_channel : SharedSerial.t := SharedSerial.mk "COM4" SPI 1 0.

(** A connection that stays silent, one that is not open, and one that
    after two quiet intervals echoes the [DIO_SET 3 true] command line
    and then answers it. *)
Definition silent : link := Build_link true (λ _, None) [].

Definition not_open : link := Build_link false (λ _, None) [].

Definition echoing : link :=
  Build_link true
    (λ k, if k =? 2
          then Some ["DIO_SET 3 true" +:+ CRLF; "DIO_SET 3 true" +:+ CRLF]
          else None)
    [].

(** ** More of the host module *)

(** The worker loop run for one turn per element of [envs], each turn
    against the connection behaviour given for it. *)
Fixpoint run_turns (envs : list link) (qs : queues) (self : SerialInterface.t)
  : queues * SerialInterface.t :=
  match envs with
  | [] => (qs, self)
  | env :: envs' =>
      let '(qs', self') := SerialInterface.step env qs self in
      run_turns envs' qs' self'
  end.

(** The command line the worker builds for a text request. *)
Definition command_line (command : SerialCommand) (text : string) : string :=
  ((name command +:+ " ") +:+ text) +:+ CRLF.

(** Truth value of what [response["data"]] can hold. *)
Definition truthy (v : value) : bool :=
  match v with
  | VCommand _ => true
  | VStr s => negb (bool_decide (s = ""))
  | VDict d => negb (bool_decide (d = ∅))
  end.

(** [response[key]] *)
Definition getitem (response : gmap string value) (key : string) : result value :=
  match response !! key with
  | Some v => Ok v
  | None => Raise (KeyError key)
  end.

(** The property [SharedSerial.driver_version].  The attribute
    [_driver_version] is passed in and handed back next to the value
    returned. *)
Definition driver_version (env : link) (self : SharedSerial.t)
    (_driver_version : option value) (σ : world)
  : world * result (value * option value) :=
  match _driver_version with
  | Some v =>
      if truthy v then (σ, Ok (v, Some v))
      else
        let '(σ', outcome) :=
          SharedSerial.handle_command env self VERSION (PStr "") σ in
        (σ', driver_version_response ← outcome;
             v' ← getitem driver_version_response "data";
             Ok (v', Some v'))
  | None =>
      let '(σ', outcome) :=
        SharedSerial.handle_command env self VERSION (PStr "") σ in
      (σ', driver_version_response ← outcome;
           v' ← getitem driver_version_response "data";
           Ok (v', Some v'))
  end.

(** [bytes([n])]: one byte for [n] in [range(256)], [ValueError]
    ([None]) otherwise. *)
Definition bytes_of_int (n : Z) : option (list Init.Byte.byte) :=
  if bool_decide (0 ≤ n < 256)%Z
  then Some [byte_of_ascii (ascii_of_nat (Z.to_nat n))]
  else None.

(** [SpiIo.receive_message]: [None] when building the payload raises
    [ValueError], before anything is sent. *)
Definition receive_message (env : link) (shared_serial : SharedSerial.t)
    (receive_length : Z) (σ : world)
  : option (world * result (gmap string value)) :=
  payload ← bytes_of_int receive_length;
  Some (SharedSerial.handle_command env shared_serial SPI_RECEIVE
          (PBytes payload) σ).

Module DigitalIO.

(** [DigitalIO.info]: [dio_info.get("extension", "")]. *)
Definition info (env : link) (shared_serial : SharedSerial.t) (σ : world)
  : world * result value :=
  let '(σ', outcome) :=
    SharedSerial.handle_command env shared_serial DIO_LIST (PStr "") σ in
  (σ', dio_info ← outcome; Ok (default (VStr "") (dio_info !! "extension"))).

End DigitalIO.

(** A channel whose worker thread has ended. *)
Definition dead (σ : world) (self : SharedSerial.t) : bool :=
  match interfaces σ !! SharedSerial.serial_interface self with
  | None => false
  | Some w =>
      match SerialInterface.thread w with
      | SerialInterface.Terminated _ => true
      | _ => false
      end
      && match queue_store σ !! SharedSerial.response_q self with
         | Some [] => true
         | _ => false
         end
  end.

(** ** More string operations of Python *)

Module Str.

(** [c in s] for a string [c] of one character *)
Fixpoint contains (c : ascii) (s : string) : bool :=
  match s with
  | EmptyString => false
  | String c' s' => bool_decide (c' = c) || contains c s'
  end.

(** [s.replace(old, new)] for [old] and [new] of one character each *)
Fixpoint replace (old new : ascii) (s : string) : string :=
  match s with
  | EmptyString => EmptyString
  | String c s' => String (if bool_decide (c = old) then new else c) (replace old new s')
  end.

(** [s.split(sep)] for [sep] of one character: empty pieces are kept. *)
Fixpoint split_on (sep : ascii) (s : string) : list string :=
  match s with
  | EmptyString => [EmptyString]
  | String c s' =>
      if bool_decide (c = sep) then EmptyString :: split_on sep s'
      else
        match split_on sep s' with
        | piece :: pieces => String c piece :: pieces
        | [] => [String c EmptyString]
        end
  end.

(** [str(n)] for an [int] *)
Definition of_int (n : Z) : string := NilZero.string_of_int (Z.to_int n).

(** [str(b)] for a [bool] *)
Definition of_bool (b : bool) : string := if b then "True" else "False".

End Str.

(** ** The firmware: [circuitpython_mcu/code.py] *)

Module Mcu.

(** *** The hexadecimal codec *)

Definition hexdigit (n : nat) : ascii :=
  default "0"%char (list_ascii_of_string "0123456789abcdef" !! n).

(** The two digits [binascii.hexlify] writes for one byte. *)
Definition hexlify_byte (b : Init.Byte.byte) : string :=
  let n := nat_of_ascii (ascii_of_byte b) in
  String (hexdigit (n / 16)) (String (hexdigit (n mod 16)) EmptyString).

(** [binascii.hexlify(data, sep)], read as text. *)
Fixpoint hexlify (sep : string) (data : list Init.Byte.byte) : string :=
  match data with
  | [] => ""
  | [b] => hexlify_byte b
  | b :: data' => hexlify_byte b +:+ sep +:+ hexlify sep data'
  end.

(** The value of a hexadecimal digit, either case. *)
Definition hexval (c : ascii) : option nat :=
  let n := nat_of_ascii c in
  if (48 <=? n) && (n <=? 57) then Some (n - 48)
  else if (97 <=? n) && (n <=? 102) then Some (n - 87)
  else if (65 <=? n) && (n <=? 70) then Some (n - 55)
  else None.

(** [binascii.unhexlify(s)]: [None] when it raises, on a character that
    is no hexadecimal digit or on an odd number of digits. *)
Fixpoint unhexlify (s : string) : option (list Init.Byte.byte) :=
  match s with
  | EmptyString => Some []
  | String _ EmptyString => None
  | String hi (String lo s') =>
      match hexval hi, hexval lo with
      | Some h, Some l =>
          match unhexlify s' with
          | Some bytes => Some (byte_of_ascii (ascii_of_nat (16 * h + l)) :: bytes)
          | None => None
          end
      | _, _ => None
      end
  end.

(** The argument of [bytes_to_hex]: an [int] or a [bytes]. *)
Inductive hex_data :=
  | DInt (n : Z)
  | DBytes (b : list Init.Byte.byte).

(** [bytes_to_hex]: [None] when [bytes([data])] raises [ValueError]. *)
Definition bytes_to_hex (data : hex_data) : option string :=
  match data with
  | DInt n => b ← bytes_of_int n; Some (hexlify " " b)
  | DBytes b => Some (hexlify " " b)
  end.

(** The argument of [hexstr_to_bytes]: a [str], or the list of tokens
    that [handle_cmd] passes. *)
Inductive hex_arg :=
  | AStr (s : string)
  | AList (l : list string).

(** [hexstr_to_bytes]: [None] when [unhexlify] raises. *)
Definition hexstr_to_bytes (hex_str : hex_arg) : option (list Init.Byte.byte) :=
  let hex_values :=
    match hex_str with
    | AStr s =>
        let s := if Str.contains " " s then Str.replace " " ":" s else s in
        if Str.contains ":" s then Str.split_on ":" s else [s]
    | AList l => l
    end in
  let clean_hex_values :=
    (λ hex_value : string,
       if Nat.odd (String.length hex_value) then "0" +:+ hex_value else hex_value)
    <$> hex_values in
  unhexlify (Py.join "" clean_hex_values).

(** [SpiInterface.send], the text it returns. *)
Definition send_reply (data : list Init.Byte.byte) : string :=
  "Sent: " +:+ hexlify " " data.

(** The line [handle_cmd] prints for a command that ran:
    ["{} {}".format(command, reply)]. *)
Definition printed (command reply : string) : string :=
  command +:+ " " +:+ reply.

(** *** The alive LED *)

Module LedHandler.

Record t := mk {
  led_value : bool;
  counter : nat;
}.

(** [update] *)
Definition update (self : t) : t :=
  let counter := (counter self + 1) mod 20 in
  mk (if counter =? 0 then false
      else if counter =? 15 then true
      else led_value self)
     counter.

End LedHandler.

(** *** Pins *)

Inductive Direction := INPUT | OUTPUT.

(** A [DigitalInOut] as the firmware uses it: the direction it was
    given and the level its [value] attribute holds. *)
Record DigitalInOut := {
  direction : Direction;
  value : bool;
}.

(** The position [l[i]] addresses in a list of length [len]; [None] for
    [IndexError]. *)
Definition index (len : nat) (i : Z) : option nat :=
  if bool_decide (0 ≤ i < Z.of_nat len)%Z then Some (Z.to_nat i)
  else if bool_decide (- Z.of_nat len ≤ i < 0)%Z then Some (Z.to_nat (Z.of_nat len + i))
  else None.

Definition set_value (v : bool) (pin : DigitalInOut) : DigitalInOut :=
  Build_DigitalInOut (direction pin) v.

Module Relay.

(** [Relay.set_or_clear]: the reply and the relays, [None] for
    [IndexError]. *)
Definition set_or_clear (pin_num : Z) (value : bool) (dio_relays : list DigitalInOut)
  : option (string * list DigitalInOut) :=
  if bool_decide (pin_num < Z.of_nat (length dio_relays))%Z then
    i ← index (length dio_relays) pin_num;
    Some (Str.of_int pin_num +:+ " " +:+ Str.of_bool value,
          alter (set_value value) i dio_relays)
  else Some ("ERROR: Cannot set relay pin: " +:+ Str.of_int pin_num, dio_relays).

(** [Relay.read] *)
Definition read (pin_num : Z) (dio_relays : list DigitalInOut) : option string :=
  if bool_decide (pin_num < Z.of_nat (length dio_relays))%Z then
    i ← index (length dio_relays) pin_num;
    pin ← dio_relays !! i;
    Some (Str.of_int pin_num +:+ " " +:+ Str.of_bool (Mcu.value pin))
  else Some ("ERROR: Cannot read relay pin: " +:+ Str.of_int pin_num).

End Relay.

End Mcu.


(** * Properties *)

(** ** Splitting and member lookup *)

Section Tokens.

(** The two classification kinds are not verbs. *)
Lemma verbs_spec (c : SerialCommand) :
  c ∈ verbs ↔ c ≠ ERROR ∧ c ≠ EXCEPTION.
Proof.
  unfold verbs. rewrite !elem_of_cons, elem_of_nil.
  destruct c; split; try (intros [? ?]; done); try (intros _; tauto);
    intros H; repeat destruct H as [H|H]; done.
Qed.

Lemma by_name_name (c : SerialCommand) : by_name (name c) = Ok c.
Proof. by destruct c. Qed.

Lemma by_name_Ok (key : string) (c : SerialCommand) :
  by_name key = Ok c → key = name c.
Proof.
  unfold by_name.
  destruct (list_find _ members) as [[i c']|] eqn:Hfind; [|done].
  apply list_find_Some in Hfind as (_ & Hname & _).
  by intros [= <-].
Qed.

Lemma by_name_unknown (key : string) :
  (∀ c, name c ≠ key) → by_name key = Raise (KeyError key).
Proof.
  intros Hnone. destruct (by_name key) as [c|e] eqn:Hby.
  - apply by_name_Ok in Hby. by destruct (Hnone c).
  - unfold by_name in Hby.
    destruct (list_find _ members) as [[i c']|]; by inversion Hby.
Qed.

(** Membership among the first two tokens looks at the first token
    and at the head of the rest. *)
Lemma contains_take2 (x field0 : string) (fields : list string) :
  Py.contains x (take 2 (field0 :: fields)) = true ↔
  x = field0 ∨ head fields = Some x.
Proof.
  unfold Py.contains. rewrite bool_decide_eq_true.
  destruct fields as [|field1 fields]; simpl.
  - rewrite list_elem_of_singleton. split; [by left | by intros [?|?]].
  - rewrite take_0, !elem_of_cons, elem_of_nil.
    split; [intros [?|[?|[]]] | intros [?|[= ?]]]; subst; auto.
Qed.

Lemma not_contains_take2 (x field0 : string) (fields : list string) :
  x ≠ field0 → head fields ≠ Some x →
  Py.contains x (take 2 (field0 :: fields)) = false.
Proof.
  intros H0 H1. apply not_true_is_false. rewrite contains_take2. tauto.
Qed.

(** A prefix without white space stays in the word being scanned. *)
Lemma split_from_app (a b : string) (word : list ascii) :
  forallb (λ c, negb (Py.isspace c)) (list_ascii_of_string a) = true →
  Py.split_from word (a +:+ b) =
  Py.split_from (rev (list_ascii_of_string a) ++ word) b.
Proof.
  revert word. induction a as [|c a IH]; intros word Hns; [done|].
  simpl in Hns. apply andb_true_iff in Hns as [Hc Ha].
  apply negb_true_iff in Hc. simpl. rewrite Hc, (IH _ Ha).
  by rewrite <- app_assoc.
Qed.

(** The line ["V <data>"] splits into [V] and the tokens of [<data>]. *)
Lemma split_verb_line (V : SerialCommand) (data : string) :
  Py.split (name V +:+ " " +:+ data) = name V :: Py.split data.
Proof.
  unfold Py.split. rewrite split_from_app by by destruct V.
  rewrite app_nil_r. simpl.
  replace (Py.isspace " ") with true by done.
  unfold Py.flush. rewrite rev_involutive, string_of_list_ascii_of_string.
  by destruct V.
Qed.

End Tokens.

(** ** The classifier *)

Section Classifier.

Lemma clean_response_empty (r : raw_response) :
  items r = [] →
  clean_response r =
  Ok (envelope ERROR (VDict {[ "error" := "No response from MCU" ]})).
Proof. intros Hr. unfold clean_response. by rewrite Hr. Qed.

(** A first line that starts with a member name and carries no
    [EXCEPTION:] marker is classified by that name. *)
Lemma clean_response_member (kind : SerialCommand) (first : string)
    (rest fields : list string) :
  Py.split first = name kind :: fields →
  Py.contains "EXCEPTION:" (take 2 (name kind :: fields)) = false →
  clean_response (Lines (first :: rest)) =
  Ok (let response := envelope kind (VStr (Py.join " " fields)) in
      if 1 <? length (first :: rest)
      then <[ "extension" := VStr (Py.join LF rest) ]> response
      else response).
Proof.
  intros Hsplit Hexc. unfold clean_response.
  change (items (Lines (first :: rest))) with (first :: rest).
  cbv beta iota zeta. rewrite Hsplit, Hexc. cbn. by rewrite by_name_name.
Qed.

Lemma dom_envelope (kind : SerialCommand) (d : value) :
  dom (envelope kind d) = ({[ "command"; "data" ]} : gset string).
Proof.
  unfold envelope. rewrite dom_insert_L, dom_singleton_L. set_solver.
Qed.

Lemma dom_envelope_extension (kind : SerialCommand) (d x : value) :
  dom (<[ "extension" := x ]> (envelope kind d)) =
  ({[ "command"; "data" ]} ∪ {[ "extension" ]} : gset string).
Proof. rewrite dom_insert_L, dom_envelope. set_solver. Qed.

End Classifier.

(** C1.  For each of the twelve verbs [V], a single line whose tokens
    are [V] followed by the data tokens, the first of which is not the
    [EXCEPTION:] marker, is classified as kind [V], with the data tokens
    joined by single spaces as data, and without an extension. *)
Theorem C1_verb_line_classified (V : SerialCommand) (line : string)
    (fields : list string) :
  V ∈ verbs →
  Py.split line = name V :: fields →
  head fields ≠ Some "EXCEPTION:" →
  clean_response (Lines [line]) = Ok (envelope V (VStr (Py.join " " fields)))
  ∧ envelope V (VStr (Py.join " " fields)) !! "extension" = None.
Proof.
  intros HV Hsplit Hhead. split; [|done].
  rewrite (clean_response_member V line [] fields Hsplit); [done|].
  apply not_contains_take2; [|done].
  clear. by destruct V.
Qed.

Lemma C1_verb_line_classified_witness :
  clean_response (Lines ["DIO_SET 3 true"]) = Ok (envelope DIO_SET (VStr "3 true"))
  ∧ envelope DIO_SET (VStr "3 true") !! "extension" = None.
Proof.
  apply (C1_verb_line_classified DIO_SET "DIO_SET 3 true" ["3"; "true"]).
  - by apply verbs_spec.
  - reflexivity.
  - discriminate.
Defined.

(** C2.  What the code does on a first line that starts with the
    [ERROR:] marker (not followed by [EXCEPTION:]): the assignments of
    the [ERROR:] branch are overwritten by the [else] of the
    [EXCEPTION:] test, which looks the marker up as a member name and
    raises [KeyError]; no envelope is returned. *)
Theorem C2_error_marker_raises (first : string) (rest fields : list string) :
  Py.split first = "ERROR:" :: fields →
  head fields ≠ Some "EXCEPTION:" →
  Py.contains "ERROR:" (take 2 (Py.split first)) = true
  ∧ clean_response (Lines (first :: rest)) = Raise (KeyError "ERROR:").
Proof.
  intros Hsplit Hhead. split.
  - rewrite Hsplit. apply contains_take2. by left.
  - unfold clean_response.
    change (items (Lines (first :: rest))) with (first :: rest).
    cbv beta iota zeta. rewrite Hsplit.
    by rewrite not_contains_take2.
Qed.

Lemma C2_error_marker_raises_witness :
  Py.contains "ERROR:" (take 2 (Py.split "ERROR: bad pin")) = true
  ∧ clean_response (Lines ["ERROR: bad pin"]) = Raise (KeyError "ERROR:").
Proof.
  apply (C2_error_marker_raises "ERROR: bad pin" [] ["bad"; "pin"]).
  - reflexivity.
  - discriminate.
Defined.

(** C3, as stated, fails on the single line ["FOO bar"]: its first
    token is no member name and no marker, and the classifier raises
    [KeyError] instead of returning an envelope. *)
Lemma C3_unknown_verb_counterexample :
  Py.split "FOO bar" = ["FOO"; "bar"]
  ∧ (∀ c, name c ≠ "FOO")
  ∧ "FOO" ≠ "ERROR:" ∧ "FOO" ≠ "EXCEPTION:"
  ∧ ¬ ∃ response, clean_response (Lines ["FOO bar"]) = Ok response.
Proof.
  split; [done|]. split; [by intros []|]. do 2 (split; [done|]).
  by intros [response Hresp].
Qed.

(** C3, amended.  A non-empty input whose first token is not the name
    of a member and not [TIMEOUT], the line the worker itself makes up,
    and whose first two tokens include neither the [ERROR:] nor the
    [EXCEPTION:] marker, makes the classifier raise [KeyError] on that
    token; no envelope is returned.  Lines that carry a marker and the
    worker's own timeout line are left out of the statement. *)
Theorem C3_unknown_verb_raises (first token : string)
    (rest fields : list string) :
  Py.split first = token :: fields →
  (∀ c, name c ≠ token) →
  token ≠ "TIMEOUT" →
  Py.contains "ERROR:" (take 2 (token :: fields)) = false →
  Py.contains "EXCEPTION:" (take 2 (token :: fields)) = false →
  clean_response (Lines (first :: rest)) = Raise (KeyError token).
Proof.
  intros Hsplit Hunknown _ _ Hexc. unfold clean_response.
  change (items (Lines (first :: rest))) with (first :: rest).
  cbv beta iota zeta. rewrite Hsplit, Hexc. cbn.
  by rewrite by_name_unknown.
Qed.

Lemma C3_unknown_verb_raises_witness :
  clean_response (Lines ["FOO bar"; "more"]) = Raise (KeyError "FOO").
Proof.
  apply (C3_unknown_verb_raises "FOO bar" "FOO" ["more"] ["bar"]).
  - reflexivity.
  - by intros [].
  - discriminate.
  - reflexivity.
  - reflexivity.
Defined.

(** C10, as stated, fails on the single line ["ERROR foo"]: the first
    token is the member name [ERROR], so the kind is [ERROR] while data
    is the plain string ["foo"]. *)
Lemma C10_data_by_kind_counterexample :
  clean_response (Lines ["ERROR foo"]) = Ok (envelope ERROR (VStr "foo"))
  ∧ ¬ data_by_kind (envelope ERROR (VStr "foo")).
Proof.
  split; [done|]. intros Hshape.
  destruct (Hshape ERROR (VStr "foo")) as [Hmap _]; [done..|].
  destruct Hmap as (key & text & Heq); [by left|]. discriminate Heq.
Qed.

(** C10, amended.  A returned envelope has the keys [command] and
    [data], and [extension] exactly when the input has more than one
    element.  Its data is a single-key mapping exactly when the input
    is empty (kind [ERROR], key [error]) or the [EXCEPTION:] marker is
    among the first two tokens (kind [EXCEPTION], key [exception]);
    otherwise the kind is the member named by the first token, one of
    the twelve verbs or [ERROR] or [EXCEPTION] itself, and data is the
    plain string of the remaining tokens joined by single spaces.  For
    a verb kind data is therefore always a plain string. *)
Theorem C10_envelope_shape (r : raw_response) (response : gmap string value) :
  clean_response r = Ok response →
  dom response =
    {[ "command"; "data" ]} ∪
    (if 1 <? length (items r) then {[ "extension" ]} else ∅)
  ∧ ∃ kind d,
      response !! "command" = Some (VCommand kind)
      ∧ response !! "data" = Some d
      ∧ match items r with
        | [] => kind = ERROR ∧ d = VDict {[ "error" := "No response from MCU" ]}
        | first :: _ =>
            if Py.contains "EXCEPTION:" (take 2 (Py.split first))
            then kind = EXCEPTION ∧ d = VDict {[ "exception" := first ]}
            else ∃ fields, Py.split first = name kind :: fields
                           ∧ d = VStr (Py.join " " fields)
        end
      ∧ (kind ∈ verbs → plain_string d).
Proof.
  unfold clean_response.
  set (classified := match items r with [] => _ | _ => _ end).
  destruct classified as [[kind d]|e] eqn:Hclass; [|done].
  unfold mbind, result_bind. cbv beta iota. intros [= <-]. split.
  - destruct (1 <? length (items r)).
    + apply dom_envelope_extension.
    + rewrite dom_envelope. set_solver.
  - exists kind, d.
    assert (Hlook : ∀ key, key = "command" ∨ key = "data" →
      (if 1 <? length (items r)
       then <[ "extension" := VStr (Py.join LF (tail (items r))) ]> (envelope kind d)
       else envelope kind d) !! key = envelope kind d !! key).
    { intros key Hkey. destruct (1 <? length (items r)); [|done].
      apply lookup_insert_ne. by destruct Hkey as [-> | ->]. }
    rewrite !Hlook by auto. split; [done|]. split; [done|].
    subst classified. destruct (items r) as [|first others].
    + injection Hclass as <- <-. split; [done|].
      rewrite verbs_spec. by intros [? _].
    + cbv beta iota zeta in Hclass.
      destruct (Py.contains "EXCEPTION:" (take 2 (Py.split first))).
      * injection Hclass as <- <-. split; [done|].
        rewrite verbs_spec. by intros [_ ?].
      * destruct (Py.split first) as [|field0 fields]; [done|].
        cbn in Hclass. destruct (by_name field0) as [c|] eqn:Hby; [|done].
        cbn in Hclass. injection Hclass as <- <-.
        apply by_name_Ok in Hby as ->. split; [by exists fields|].
        intros _. by eexists.
Qed.

Lemma C10_envelope_shape_witness :
  dom (<[ "extension" := VStr ("  0 true" +:+ LF +:+ "  1 false") ]>
         (envelope RELAY_LIST (VStr ""))) =
    ({[ "command"; "data" ]} ∪ {[ "extension" ]} : gset string)
  ∧ ∃ kind d,
      (<[ "extension" := VStr ("  0 true" +:+ LF +:+ "  1 false") ]>
         (envelope RELAY_LIST (VStr ""))) !! "command" = Some (VCommand kind)
      ∧ (<[ "extension" := VStr ("  0 true" +:+ LF +:+ "  1 false") ]>
         (envelope RELAY_LIST (VStr ""))) !! "data" = Some d
      ∧ (∃ fields, Py.split "RELAY_LIST" = name kind :: fields
                   ∧ d = VStr (Py.join " " fields))
      ∧ (kind ∈ verbs → plain_string d).
Proof.
  apply (C10_envelope_shape (Lines ["RELAY_LIST"; "  0 true"; "  1 false"])).
  reflexivity.
Defined.

(** ** The worker loop *)

Section Worker.

Import SerialInterface.

Variable env : link.
Variable serial_command_str : string.

(** Nothing waiting for the whole of the remaining intervals: the
    [else] of the [for] loop. *)
Lemma poll_timeout (remaining k : nat) :
  (∀ j, k ≤ j < k + remaining → in_waiting env j = None) →
  poll env serial_command_str k remaining = (Ok ["TIMEOUT"], remaining).
Proof.
  revert k. induction remaining as [|n IH]; intros k Hquiet; [done|].
  simpl. rewrite Hquiet by lia. rewrite IH; [done|].
  intros j Hj. apply Hquiet. lia.
Qed.

(** Lines arriving after [d] quiet intervals. *)
Lemma poll_arrival (d remaining k : nat) (first : string)
    (others : list string) :
  d < remaining →
  (∀ j, k ≤ j < k + d → in_waiting env j = None) →
  in_waiting env (k + d) = Some (first :: others) →
  poll env serial_command_str k remaining =
  (Ok (if decide (first = serial_command_str) then others
       else first :: others), d).
Proof.
  revert remaining k.
  induction d as [|d IH]; intros remaining k Hlt Hquiet Harrive.
  - destruct remaining as [|n]; [lia|]. simpl.
    rewrite Nat.add_0_r in Harrive. rewrite Harrive.
    by destruct (decide (first = serial_command_str)).
  - destruct remaining as [|n]; [lia|]. simpl.
    rewrite Hquiet by lia.
    rewrite (IH n (S k)); [done|lia| |].
    + intros j Hj. apply Hquiet. lia.
    + by replace (S k + d) with (k + S d) by lia.
Qed.

End Worker.

(** C7.  In a transaction whose write succeeded and whose reply lines
    arrive within the twenty polling intervals, the worker puts on the
    queue of the requesting service the lines after the first when the
    first equals the outgoing command line, and all the lines otherwise;
    the pass ends without an exception. *)
Theorem C7_echo_discarded (env : link) (qs : queues) (self : SerialInterface.t)
    (cmd : cmd_dict) (pending : list cmd_dict) (q k : nat) (text first : string)
    (others : list string) :
  SerialInterface.input_q self = cmd :: pending →
  SerialInterface.service_qs self !! service cmd = Some q →
  data cmd = PStr text →
  port_open env = true →
  k < 20 →
  (∀ j, j < k → in_waiting env j = None) →
  in_waiting env k = Some (first :: others) →
  ∃ self',
    SerialInterface.run_pass env qs self =
      (put q (Lines (if decide (first = ((name (command cmd) +:+ " ") +:+ text) +:+ CRLF)
                     then others else first :: others)) qs,
       self', None)
    ∧ SerialInterface.written self' =
        SerialInterface.written self ++ [((name (command cmd) +:+ " ") +:+ text) +:+ CRLF].
Proof.
  intros Hin Hq Hdata Hopen Hk Hquiet Harrive.
  unfold SerialInterface.run_pass. rewrite Hin. cbn -[SerialInterface.poll put].
  rewrite Hq. cbn -[SerialInterface.poll put]. rewrite Hdata.
  cbn -[SerialInterface.poll put]. rewrite Hopen.
  rewrite (poll_arrival env _ k 20 0 first others Hk); [|intros j Hj; apply Hquiet; lia|done].
  eexists. split; reflexivity.
Qed.

Lemma C7_echo_discarded_witness :
  ∃ self',
    SerialInterface.run_pass echoing [[]]
      (SerialInterface.set_input_q [Build_cmd_dict DIO DIO_SET (PStr "3 true")]
         (SerialInterface.register DIO 0
            (SerialInterface.start (SerialInterface.init "COM4")))) =
      ([[Lines ["DIO_SET 3 true" +:+ CRLF]]], self', None)
    ∧ SerialInterface.written self' = ["DIO_SET 3 true" +:+ CRLF].
Proof.
  apply (C7_echo_discarded echoing [[]]
           (SerialInterface.set_input_q [Build_cmd_dict DIO DIO_SET (PStr "3 true")]
              (SerialInterface.register DIO 0
                 (SerialInterface.start (SerialInterface.init "COM4"))))
           (Build_cmd_dict DIO DIO_SET (PStr "3 true")) [] 0 2 "3 true"
           ("DIO_SET 3 true" +:+ CRLF) ["DIO_SET 3 true" +:+ CRLF]).
  - reflexivity.
  - reflexivity.
  - reflexivity.
  - reflexivity.
  - lia.
  - intros j Hj. destruct j as [|[|j]]; [reflexivity|reflexivity|lia].
  - reflexivity.
Defined.

(** ** A call on a channel at rest *)

Section Call.

Import SerialInterface SharedSerial.

Variable env : link.
Variable σ : world.
Variable self : SharedSerial.t.
Variable w : SerialInterface.t.
Variable message : cmd_dict.

Hypothesis Hidle : idle σ self = true.
Hypothesis Hw : interfaces σ !! serial_interface self = Some w.

Lemma idle_inv :
  thread w = Running ∧ alive w = true ∧ input_q w = []
  ∧ service_qs w !! SharedSerial.service self = Some (response_q self)
  ∧ queue_store σ !! response_q self = Some [].
Proof.
  unfold idle in Hidle. rewrite Hw in Hidle.
  repeat (apply andb_true_iff in Hidle as [Hidle ?]).
  destruct (thread w); try done. destruct (input_q w); try done.
  destruct (queue_store σ !! response_q self) as [[|? ?]|]; try done.
  repeat split; try done. by eapply bool_decide_eq_true_1.
Qed.

(** The worker's turn runs one pass on the submitted message. *)
Lemma worker_turn_submit :
  worker_turn env (serial_interface self) (submit self message σ) =
  let '(qs, w', e) :=
    run_pass env (queue_store σ) (set_input_q [message] w) in
  Build_world qs
    (<[ serial_interface self :=
          match e with
          | None => w'
          | Some e => set_thread (Terminated (Some e)) w'
          end ]> (interfaces σ))
    (serial_interfaces σ).
Proof.
  destruct idle_inv as (Hth & Hal & Hin & _).
  unfold worker_turn, submit. cbn [interfaces queue_store serial_interfaces].
  rewrite list_lookup_alter_eq, Hw. cbn [fmap option_fmap option_map].
  rewrite Hin. cbn [app]. unfold step.
  cbn [thread alive set_input_q]. rewrite Hth, Hal.
  destruct (run_pass env (queue_store σ) (set_input_q [message] w))
    as [[qs w'] [e|]];
    by rewrite !list_insert_alter, list_alter_alter_eq.
Qed.

(** The final [if] of [handle_command] returns [cleaned] either way. *)
Lemma handle_command_result (raw : raw_response) :
  (cleaned ← clean_response raw;
   if bool_decide ("error" ∈ dom cleaned) || bool_decide ("exception" ∈ dom cleaned)
   then Ok cleaned
   else Ok cleaned) = clean_response raw.
Proof.
  destruct (clean_response raw) as [cleaned|e]; [|done]. cbn.
  by destruct (_ || _).
Qed.

(** The pass delivered one item to the channel's queue: the caller
    receives it and classifies it. *)
Lemma handle_command_delivered (item : raw_response) (w' : SerialInterface.t) :
  run_pass env (queue_store σ) (set_input_q [message] w) =
    (put (response_q self) item (queue_store σ), w', None) →
  queue_store (worker_turn env (serial_interface self) (submit self message σ))
    !! response_q self = Some [item]
  ∧ interfaces (worker_turn env (serial_interface self) (submit self message σ))
      !! serial_interface self = Some w'
  ∧ (let '(got, _) :=
       get (response_q self)
         (worker_turn env (serial_interface self) (submit self message σ)) in
     got) = Some item.
Proof.
  intros Hpass. destruct idle_inv as (_ & _ & _ & _ & Hqs).
  rewrite worker_turn_submit, Hpass. cbn [queue_store interfaces].
  assert (put (response_q self) item (queue_store σ) !! response_q self
          = Some [item]) as Hput.
  { unfold put. by rewrite list_lookup_alter_eq, Hqs. }
  split; [done|]. split.
  - apply list_lookup_insert_eq. by eapply lookup_lt_Some.
  - unfold get. cbn [queue_store]. by rewrite Hput.
Qed.

(** The pass raised: the thread is dead, the queue stays empty, and
    the caller's wait ends with [queue.Empty]. *)
Lemma handle_command_crashed (e : exn) (w' : SerialInterface.t) :
  run_pass env (queue_store σ) (set_input_q [message] w) =
    (queue_store σ, w', Some e) →
  interfaces (worker_turn env (serial_interface self) (submit self message σ))
    !! serial_interface self = Some (set_thread (Terminated (Some e)) w')
  ∧ (let '(got, _) :=
       get (response_q self)
         (worker_turn env (serial_interface self) (submit self message σ)) in
     got) = None.
Proof.
  intros Hpass. destruct idle_inv as (_ & _ & _ & _ & Hqs).
  rewrite worker_turn_submit, Hpass. cbn [queue_store interfaces]. split.
  - apply list_lookup_insert_eq. by eapply lookup_lt_Some.
  - unfold get. cbn [queue_store]. by rewrite Hqs.
Qed.

End Call.

Section Transactions.

Import SerialInterface SharedSerial.

Variable env : link.
Variable σ : world.
Variable self : SharedSerial.t.
Variable w : SerialInterface.t.
Variable command : SerialCommand.

Hypothesis Hidle : idle σ self = true.
Hypothesis Hw : interfaces σ !! serial_interface self = Some w.

(** A text request whose write succeeds and whose reply never comes. *)
Lemma run_pass_timeout (text : string) :
  port_open env = true →
  (∀ k, k < 20 → in_waiting env k = None) →
  ∃ w',
    run_pass env (queue_store σ)
      (set_input_q [Build_cmd_dict (SharedSerial.service self) command (PStr text)] w) =
    (put (response_q self) (Lines ["TIMEOUT"]) (queue_store σ), w', None)
    ∧ slept w' = slept w + 20.
Proof.
  intros Hopen Hquiet.
  destruct (idle_inv σ self w Hidle Hw) as (_ & _ & _ & Hq & _).
  unfold run_pass. cbn -[poll put]. rewrite Hq. cbn -[poll put].
  rewrite Hopen, poll_timeout by (intros j Hj; apply Hquiet; lia).
  eexists. split; reflexivity.
Qed.

(** A text request on a port that is not open. *)
Lemma run_pass_not_open (text : string) :
  port_open env = false →
  ∃ w',
    run_pass env (queue_store σ)
      (set_input_q [Build_cmd_dict (SharedSerial.service self) command (PStr text)] w) =
    (put (response_q self)
       (Text "ERROR: Cannot send DIO command as serial port not open.")
       (queue_store σ), w', None)
    ∧ written w' = written w.
Proof.
  intros Hopen.
  destruct (idle_inv σ self w Hidle Hw) as (_ & _ & _ & Hq & _).
  unfold run_pass. cbn -[poll put]. rewrite Hq. cbn -[poll put].
  rewrite Hopen. eexists. split; reflexivity.
Qed.

(** A request that carries [bytes]. *)
Lemma run_pass_bytes (message : list Init.Byte.byte) :
  ∃ w',
    run_pass env (queue_store σ)
      (set_input_q [Build_cmd_dict (SharedSerial.service self) command (PBytes message)] w) =
    (queue_store σ, w', Some TypeError)
    ∧ written w' = written w.
Proof.
  destruct (idle_inv σ self w Hidle Hw) as (_ & _ & _ & Hq & _).
  unfold run_pass. cbn -[poll put]. rewrite Hq. cbn -[poll put].
  eexists. split; reflexivity.
Qed.

End Transactions.

(** ** Calls end to end *)

Section EndToEnd.

Import SharedSerial.

Lemma idle_worker (σ : world) (self : SharedSerial.t) :
  idle σ self = true → ∃ w, interfaces σ !! serial_interface self = Some w.
Proof.
  unfold idle. destruct (interfaces σ !! serial_interface self); [eauto|done].
Qed.

(** What [handle_command] returns is the classification of what
    [get] handed over. *)
Lemma handle_command_snd (env : link) (σ : world) (self : SharedSerial.t)
    (command : SerialCommand) (data : payload) :
  (handle_command env self command data σ).2 =
  clean_response
    match (get (response_q self)
             (worker_turn env (serial_interface self)
                (submit self (Build_cmd_dict (service self) command data) σ))).1 with
    | Some item => item
    | None => Text ""
    end.
Proof.
  unfold handle_command. destruct (get _ _) as [got σ']. cbn [fst snd].
  apply handle_command_result.
Qed.

Lemma handle_command_fst_empty (env : link) (σ : world) (self : SharedSerial.t)
    (command : SerialCommand) (data : payload) :
  (get (response_q self)
     (worker_turn env (serial_interface self)
        (submit self (Build_cmd_dict (service self) command data) σ))).1 = None →
  (handle_command env self command data σ).1 =
  worker_turn env (serial_interface self)
    (submit self (Build_cmd_dict (service self) command data) σ).
Proof.
  unfold handle_command, get.
  destruct (queue_store _ !! response_q self) as [[|item pending]|]; done.
Qed.

End EndToEnd.

(** C4.  What the code does when the write succeeds and nothing
    arrives during the twenty polling intervals: the worker sleeps
    twenty times a tenth of a second and puts the single line
    [TIMEOUT] on the queue of the requesting service; the caller then
    looks [TIMEOUT] up as a member name and [handle_command] raises
    [KeyError] instead of returning an envelope. *)
Theorem C4_timeout_raises (env : link) (σ : world) (self : SharedSerial.t)
    (command : SerialCommand) (text : string) :
  idle σ self = true →
  port_open env = true →
  (∀ k, k < 20 → in_waiting env k = None) →
  let σ1 :=
    SharedSerial.worker_turn env (SharedSerial.serial_interface self)
      (SharedSerial.submit self
         (Build_cmd_dict (SharedSerial.service self) command (PStr text)) σ) in
  queue_store σ1 !! SharedSerial.response_q self = Some [Lines ["TIMEOUT"]]
  ∧ (∃ w w1,
       interfaces σ !! SharedSerial.serial_interface self = Some w
       ∧ interfaces σ1 !! SharedSerial.serial_interface self = Some w1
       ∧ SerialInterface.slept w1 = SerialInterface.slept w + 20)
  ∧ (SharedSerial.handle_command env self command (PStr text) σ).2 =
    Raise (KeyError "TIMEOUT").
Proof.
  intros Hidle Hopen Hquiet σ1.
  destruct (idle_worker σ self Hidle) as [w Hw].
  destruct (run_pass_timeout env σ self w command Hidle Hw text Hopen Hquiet)
    as (w' & Hpass & Hslept).
  destruct (handle_command_delivered env σ self w _ Hidle Hw _ _ Hpass)
    as (Hq & Hw1 & Hgot).
  split; [exact Hq|]. split; [by exists w, w'|].
  rewrite handle_command_snd.
  destruct (SharedSerial.get _ _) as [got σ']. cbn [fst]. by rewrite Hgot.
Qed.

Lemma C4_timeout_raises_witness :
  queue_store
    (SharedSerial.worker_turn silent 0
       (SharedSerial.submit dio_channel (Build_cmd_dict DIO VERSION (PStr "")) dio_world))
    !! 0 = Some [Lines ["TIMEOUT"]]
  ∧ (∃ w w1,
       interfaces dio_world !! 0 = Some w
       ∧ interfaces
           (SharedSerial.worker_turn silent 0
              (SharedSerial.submit dio_channel (Build_cmd_dict DIO VERSION (PStr "")) dio_world))
           !! 0 = Some w1
       ∧ SerialInterface.slept w1 = SerialInterface.slept w + 20)
  ∧ (SharedSerial.handle_command silent dio_channel VERSION (PStr "") dio_world).2 =
    Raise (KeyError "TIMEOUT").
Proof.
  apply (C4_timeout_raises silent dio_world dio_channel VERSION "").
  - reflexivity.
  - reflexivity.
  - reflexivity.
Defined.

(** C5.  When the channel's queue has nothing for the caller at the end
    of its wait, [handle_command] classifies the empty string and
    returns the [ERROR] envelope whose data says that there was no
    response; it does not raise.  The classifier returns the same
    envelope for the empty list of lines. *)
Theorem C5_no_response (env : link) (σ : world) (self : SharedSerial.t)
    (command : SerialCommand) (data : payload) :
  (SharedSerial.get (SharedSerial.response_q self)
     (SharedSerial.worker_turn env (SharedSerial.serial_interface self)
        (SharedSerial.submit self
           (Build_cmd_dict (SharedSerial.service self) command data) σ))).1 = None →
  (SharedSerial.handle_command env self command data σ).2 =
    Ok (envelope ERROR (VDict {[ "error" := "No response from MCU" ]}))
  ∧ clean_response (Lines []) =
    Ok (envelope ERROR (VDict {[ "error" := "No response from MCU" ]}))
  ∧ clean_response (Text "") =
    Ok (envelope ERROR (VDict {[ "error" := "No response from MCU" ]})).
Proof.
  intros Hempty. split; [|done].
  rewrite handle_command_snd, Hempty. by apply clean_response_empty.
Qed.

Lemma C5_no_response_witness :
  (SharedSerial.handle_command silent dio_channel VERSION (PStr "") closed_world).2 =
    Ok (envelope ERROR (VDict {[ "error" := "No response from MCU" ]}))
  ∧ clean_response (Lines []) =
    Ok (envelope ERROR (VDict {[ "error" := "No response from MCU" ]}))
  ∧ clean_response (Text "") =
    Ok (envelope ERROR (VDict {[ "error" := "No response from MCU" ]})).
Proof.
  apply (C5_no_response silent closed_world dio_channel VERSION (PStr "")).
  reflexivity.
Defined.

(** C6.  What the code does when the write fails because the port is
    not open: the worker puts the bare string of the error message, not
    a list of lines, on the queue of the requesting service; the caller
    takes its first character for the first line, looks [E] up as a
    member name and [handle_command] raises [KeyError]. *)
Theorem C6_port_not_open_raises (env : link) (σ : world)
    (self : SharedSerial.t) (command : SerialCommand) (text : string) :
  idle σ self = true →
  port_open env = false →
  let σ1 :=
    SharedSerial.worker_turn env (SharedSerial.serial_interface self)
      (SharedSerial.submit self
         (Build_cmd_dict (SharedSerial.service self) command (PStr text)) σ) in
  queue_store σ1 !! SharedSerial.response_q self =
    Some [Text "ERROR: Cannot send DIO command as serial port not open."]
  ∧ (SharedSerial.handle_command env self command (PStr text) σ).2 =
    Raise (KeyError "E").
Proof.
  intros Hidle Hopen σ1.
  destruct (idle_worker σ self Hidle) as [w Hw].
  destruct (run_pass_not_open env σ self w command Hidle Hw text Hopen)
    as (w' & Hpass & _).
  destruct (handle_command_delivered env σ self w _ Hidle Hw _ _ Hpass)
    as (Hq & _ & Hgot).
  split; [exact Hq|].
  rewrite handle_command_snd.
  destruct (SharedSerial.get _ _) as [got σ']. cbn [fst]. by rewrite Hgot.
Qed.

Lemma C6_port_not_open_raises_witness :
  queue_store
    (SharedSerial.worker_turn not_open 0
       (SharedSerial.submit dio_channel (Build_cmd_dict DIO DIO_SET (PStr "3")) dio_world))
    !! 0 = Some [Text "ERROR: Cannot send DIO command as serial port not open."]
  ∧ (SharedSerial.handle_command not_open dio_channel DIO_SET (PStr "3") dio_world).2 =
    Raise (KeyError "E").
Proof.
  apply (C6_port_not_open_raises not_open dio_world dio_channel DIO_SET "3").
  - reflexivity.
  - reflexivity.
Defined.

(** C9.  What the code does with the byte payload [0xDE 0xAD]: building
    the command line adds [bytes] to a [str] and raises [TypeError] in
    the worker thread, which ends without writing anything; the
    caller's queue stays empty and [send_message] returns the [ERROR]
    envelope for no response.  The classification of the reply line
    [SPI_SEND Sent: de ad], had it come, is as the claim says. *)
Theorem C9_spi_send_bytes_raises (env : link) (σ : world)
    (self : SharedSerial.t) :
  idle σ self = true →
  (∃ w w1,
     interfaces σ !! SharedSerial.serial_interface self = Some w
     ∧ interfaces (SpiIo.send_message env self [Init.Byte.xde; Init.Byte.xad] σ).1
         !! SharedSerial.serial_interface self = Some w1
     ∧ SerialInterface.thread w1 = SerialInterface.Terminated (Some TypeError)
     ∧ SerialInterface.written w1 = SerialInterface.written w)
  ∧ (SpiIo.send_message env self [Init.Byte.xde; Init.Byte.xad] σ).2 =
    Ok (envelope ERROR (VDict {[ "error" := "No response from MCU" ]}))
  ∧ clean_response (Lines ["SPI_SEND Sent: de ad"]) =
    Ok (envelope SPI_SEND (VStr "Sent: de ad")).
Proof.
  intros Hidle. unfold SpiIo.send_message.
  destruct (idle_worker σ self Hidle) as [w Hw].
  destruct (run_pass_bytes env σ self w SPI_SEND Hidle Hw
              [Init.Byte.xde; Init.Byte.xad]) as (w' & Hpass & Hwritten).
  destruct (handle_command_crashed env σ self w _ Hidle Hw _ _ Hpass)
    as (Hw1 & Hgot).
  assert ((SharedSerial.get (SharedSerial.response_q self)
             (SharedSerial.worker_turn env (SharedSerial.serial_interface self)
                (SharedSerial.submit self
                   (Build_cmd_dict (SharedSerial.service self) SPI_SEND
                      (PBytes [Init.Byte.xde; Init.Byte.xad])) σ))).1 = None)
    as Hempty.
  { destruct (SharedSerial.get _ _) as [got σ']. exact Hgot. }
  split; [|split; [|done]].
  - exists w, (SerialInterface.set_thread
                 (SerialInterface.Terminated (Some TypeError)) w').
    rewrite handle_command_fst_empty by exact Hempty. by repeat split.
  - rewrite handle_command_snd, Hempty. by apply clean_response_empty.
Qed.

Lemma C9_spi_send_bytes_raises_witness :
  (∃ w w1,
     interfaces spi_world !! 0 = Some w
     ∧ interfaces (SpiIo.send_message silent spi_channel [Init.Byte.xde; Init.Byte.xad] spi_world).1
         !! 0 = Some w1
     ∧ SerialInterface.thread w1 = SerialInterface.Terminated (Some TypeError)
     ∧ SerialInterface.written w1 = SerialInterface.written w)
  ∧ (SpiIo.send_message silent spi_channel [Init.Byte.xde; Init.Byte.xad] spi_world).2 =
    Ok (envelope ERROR (VDict {[ "error" := "No response from MCU" ]}))
  ∧ clean_response (Lines ["SPI_SEND Sent: de ad"]) =
    Ok (envelope SPI_SEND (VStr "Sent: de ad")).
Proof.
  apply (C9_spi_send_bytes_raises silent spi_world spi_channel).
  reflexivity.
Defined.

(** ** The worker table *)

Section Registry.

Import SerialInterface.

Lemma ports_alter (f : SerialInterface.t → SerialInterface.t) (i : nat)
    (l : list SerialInterface.t) :
  keeps_port f → serial_port <$> alter f i l = serial_port <$> l.
Proof.
  intros Hf. rewrite (list_fmap_alter serial_port f id).
  - by apply list_alter_id.
  - apply Forall_forall. intros w _. apply Hf.
Qed.

Lemma ports_insert (i : nat) (w w' : SerialInterface.t)
    (l : list SerialInterface.t) :
  l !! i = Some w → serial_port w' = serial_port w →
  serial_port <$> <[ i := w' ]> l = serial_port <$> l.
Proof.
  intros Hw Hport. rewrite list_fmap_insert. apply list_insert_id.
  by rewrite list_lookup_fmap, Hw, Hport.
Qed.

Lemma run_pass_port (env : link) (qs : queues) (w : SerialInterface.t) :
  serial_port (run_pass env qs w).1.2 = serial_port w.
Proof.
  unfold run_pass. repeat case_match; done.
Qed.

Lemma step_port (env : link) (qs : queues) (w : SerialInterface.t) :
  serial_port (step env qs w).2 = serial_port w.
Proof.
  unfold step. pose proof (run_pass_port env qs w) as Hpass.
  destruct (run_pass env qs w) as [[qs' w'] [e|]];
    repeat case_match; done.
Qed.

Lemma close_service_port (service : ConnectionType) :
  keeps_port (close_service service).
Proof. intros w. unfold close_service. by case_decide. Qed.

(** A process whose table and store differ from those of [σ] only by
    updates that keep ports is coherent when [σ] is. *)
Lemma coherent_same_ports (σ σ' : world) :
  serial_interfaces σ' = serial_interfaces σ →
  serial_port <$> interfaces σ' = serial_port <$> interfaces σ →
  coherent σ → coherent σ'.
Proof. unfold coherent. by intros -> ->. Qed.

(** Creating a channel never raises; it returns the worker the table
    holds for the port, and keeps every entry of the table. *)
Lemma new_spec (σ : world) (port : string) (service : ConnectionType) :
  ∃ self σ',
    SharedSerial.new port service σ = Ok (self, σ')
    ∧ serial_interfaces σ' !! port = Some (SharedSerial.serial_interface self)
    ∧ (∀ w, serial_interfaces σ !! port = Some w →
            SharedSerial.serial_interface self = w)
    ∧ (∀ port' w, serial_interfaces σ !! port' = Some w →
                  serial_interfaces σ' !! port' = Some w)
    ∧ (coherent σ → coherent σ').
Proof.
  unfold SharedSerial.new, SharedSerial.obtain_serial_interface.
  cbn [queue_store interfaces serial_interfaces].
  destruct (serial_interfaces σ !! port) as [w|] eqn:Htable.
  - cbn [serial_interfaces queue_store interfaces]. rewrite Htable.
    do 2 eexists. split; [reflexivity|]. cbn.
    split; [done|]. split; [by intros ? [= ->]|]. split; [done|].
    apply coherent_same_ports; [done|]. cbn.
    apply ports_alter. by intros ?.
  - cbn [serial_interfaces queue_store interfaces].
    rewrite lookup_insert_eq.
    do 2 eexists. split; [reflexivity|]. cbn.
    split; [by rewrite lookup_insert_eq|]. split; [done|]. split.
    { intros port' w Hport'. rewrite lookup_insert_ne; [done|].
      intros <-. by rewrite Htable in Hport'. }
    intros Hcoh port' w. cbn [interfaces serial_interfaces].
    rewrite ports_alter by by intros ?.
    rewrite fmap_app. cbn [fmap list_fmap serial_port start init set_thread set_alive].
    rewrite lookup_app_Some, list_lookup_singleton_Some, length_fmap.
    rewrite <- (Hcoh port' w).
    destruct (decide (port = port')) as [<-|Hne].
    + rewrite lookup_insert_eq, Htable. split.
      * intros [= <-]. right. split; [done|]. split; [lia|done].
      * intros [?|(Hle & Hlen & _)]; [done|]. f_equal. lia.
    + rewrite lookup_insert_ne by done. split; [by left|].
      intros [?|(_ & _ & ?)]; done.
Qed.

Lemma close_service_spec (σ : world) (self : SharedSerial.t)
    (service : ConnectionType) (w : nat) :
  serial_interfaces σ !! SharedSerial.serial_port self = Some w →
  SharedSerial.close_service self service σ =
  Ok (Build_world (queue_store σ)
        (alter (close_service service) w (interfaces σ))
        (serial_interfaces σ)).
Proof. intros Htable. unfold SharedSerial.close_service. by rewrite Htable. Qed.

(** Closing a service and sending a command leave the table alone
    and keep the port of every worker. *)
Lemma close_service_frame (σ σ' : world) (self : SharedSerial.t)
    (service : ConnectionType) :
  SharedSerial.close_service self service σ = Ok σ' →
  serial_interfaces σ' = serial_interfaces σ
  ∧ serial_port <$> interfaces σ' = serial_port <$> interfaces σ.
Proof.
  unfold SharedSerial.close_service.
  destruct (serial_interfaces σ !! SharedSerial.serial_port self); [|done].
  intros [= <-]. split; [done|]. cbn.
  apply ports_alter, close_service_port.
Qed.

Lemma worker_turn_frame (env : link) (w : nat) (σ : world) :
  serial_interfaces (SharedSerial.worker_turn env w σ) = serial_interfaces σ
  ∧ serial_port <$> interfaces (SharedSerial.worker_turn env w σ)
    = serial_port <$> interfaces σ.
Proof.
  unfold SharedSerial.worker_turn.
  destruct (interfaces σ !! w) as [worker|] eqn:Hworker; [|done].
  pose proof (step_port env (queue_store σ) worker) as Hstep.
  destruct (step env (queue_store σ) worker) as [qs worker'].
  split; [done|]. cbn. by eapply ports_insert.
Qed.

Lemma handle_command_frame (env : link) (σ : world) (self : SharedSerial.t)
    (command : SerialCommand) (data : payload) :
  serial_interfaces (SharedSerial.handle_command env self command data σ).1
    = serial_interfaces σ
  ∧ serial_port <$>
      interfaces (SharedSerial.handle_command env self command data σ).1
    = serial_port <$> interfaces σ.
Proof.
  unfold SharedSerial.handle_command.
  set (message := Build_cmd_dict _ _ _).
  destruct (worker_turn_frame env (SharedSerial.serial_interface self)
              (SharedSerial.submit self message σ)) as [Htable Hports].
  assert (serial_port <$> interfaces (SharedSerial.submit self message σ)
          = serial_port <$> interfaces σ) as Hsubmit.
  { cbn. apply ports_alter. by intros ?. }
  unfold SharedSerial.get.
  destruct (queue_store _ !! SharedSerial.response_q self)
    as [[|item pending]|]; cbn [fst interfaces serial_interfaces];
    rewrite ?Htable, ?Hports, ?Hsubmit; done.
Qed.

Lemma perform_table (σ : world) (o : op) (port : string) (w : nat) :
  serial_interfaces σ !! port = Some w →
  serial_interfaces (perform σ o) !! port = Some w.
Proof.
  intros Htable. destruct o as [p s|self s|env self c d]; cbn [perform].
  - destruct (new_spec σ p s) as (ch & σ' & -> & _ & _ & Hmono & _). auto.
  - destruct (SharedSerial.close_service self s σ) as [σ'|e] eqn:Hclose; [|done].
    apply close_service_frame in Hclose as [-> _]. done.
  - destruct (handle_command_frame env σ self c d) as [-> _]. done.
Qed.

Lemma perform_coherent (σ : world) (o : op) :
  coherent σ → coherent (perform σ o).
Proof.
  intros Hcoh. destruct o as [p s|self s|env self c d]; cbn [perform].
  - destruct (new_spec σ p s) as (ch & σ' & -> & _ & _ & _ & Hkeep). auto.
  - destruct (SharedSerial.close_service self s σ) as [σ'|e] eqn:Hclose; [|done].
    apply close_service_frame in Hclose as [? ?].
    by eapply coherent_same_ports.
  - destruct (handle_command_frame env σ self c d) as [? ?].
    by eapply coherent_same_ports.
Qed.

Lemma perform_all_table (ops : list op) (σ : world) (port : string) (w : nat) :
  serial_interfaces σ !! port = Some w →
  serial_interfaces (perform_all σ ops) !! port = Some w.
Proof.
  revert σ. induction ops as [|o ops IH]; intros σ Htable; [done|].
  apply IH. by apply perform_table.
Qed.

Lemma perform_all_coherent (ops : list op) (σ : world) :
  coherent σ → coherent (perform_all σ ops).
Proof.
  revert σ. induction ops as [|o ops IH]; intros σ Hcoh; [done|].
  apply IH. by apply perform_coherent.
Qed.

Lemma coherent_empty : coherent empty_world.
Proof. intros port w. cbn. by rewrite lookup_empty, lookup_nil. Qed.

Lemma coherent_one_live (σ : world) :
  coherent σ → one_live_worker_per_port σ.
Proof.
  intros Hcoh w1 w2 worker1 worker2 H1 H2 Hport _ _.
  assert (serial_interfaces σ !! serial_port worker1 = Some w1) as T1.
  { apply Hcoh. by rewrite list_lookup_fmap, H1. }
  assert (serial_interfaces σ !! serial_port worker1 = Some w2) as T2.
  { apply Hcoh. by rewrite list_lookup_fmap, H2, Hport. }
  congruence.
Qed.

End Registry.

Section Deregistration.

Import SerialInterface.

Variable service : ConnectionType.
Variable worker : SerialInterface.t.

Lemma close_service_service_qs :
  service_qs (close_service service worker) = delete service (service_qs worker).
Proof. unfold close_service. by case_decide. Qed.

Lemma close_service_thread :
  thread (close_service service worker) = thread worker.
Proof. unfold close_service. by case_decide. Qed.

Lemma close_service_others_remain :
  (∃ other, other ≠ service ∧ is_Some (service_qs worker !! other)) →
  alive (close_service service worker) = alive worker.
Proof.
  intros (other & Hne & [q Hq]). unfold close_service.
  case_decide as Hempty; [|done]. cbn in Hempty.
  assert (delete service (service_qs worker) !! other = Some q) as Hother
    by by rewrite lookup_delete_ne.
  by rewrite Hempty, lookup_empty in Hother.
Qed.

Lemma close_service_last :
  (∀ other, other ≠ service → service_qs worker !! other = None) →
  alive (close_service service worker) = false.
Proof.
  intros Hlast. unfold close_service.
  case_decide as Hempty; [done|]. destruct Hempty. cbn.
  apply map_eq. intros other. rewrite lookup_empty.
  destruct (decide (other = service)) as [->|Hne].
  - apply lookup_delete_eq.
  - rewrite lookup_delete_ne by done. by apply Hlast.
Qed.

(** With the flag cleared, the next loop test ends the thread and
    leaves the [with] block. *)
Lemma step_after_close (env : link) (qs : queues) (w : SerialInterface.t) :
  thread w = Running → alive w = false →
  step env qs w = (qs, set_thread (Terminated None) w).
Proof. intros Hth Hal. unfold step. by rewrite Hth, Hal. Qed.

End Deregistration.

(** C8.  In every process reached from the empty one by creating
    channels, closing services and sending commands:
    no two distinct workers of one port are alive;
    a channel created on a port, and any channel created on the same
    port later, hold the same worker;
    closing a service removes it from the worker's routing table, and
    the worker keeps its flag while another service is registered;
    closing the last registered service clears the flag, and the next
    loop test of a running worker ends the loop and leaves the [with]
    block that holds the connection. *)
Theorem C8_one_worker_per_port (ops : list op) :
  let σ := perform_all empty_world ops in
  one_live_worker_per_port σ
  ∧ (∀ port service1 service2 between,
       ∃ self1 σ1 self2 σ2,
         SharedSerial.new port service1 σ = Ok (self1, σ1)
         ∧ SharedSerial.new port service2 (perform_all σ1 between) = Ok (self2, σ2)
         ∧ SharedSerial.serial_interface self2 = SharedSerial.serial_interface self1)
  ∧ (∀ self service w worker,
       serial_interfaces σ !! SharedSerial.serial_port self = Some w →
       interfaces σ !! w = Some worker →
       ∃ σ' worker',
         SharedSerial.close_service self service σ = Ok σ'
         ∧ interfaces σ' !! w = Some worker'
         ∧ SerialInterface.service_qs worker' =
             delete service (SerialInterface.service_qs worker)
         ∧ SerialInterface.thread worker' = SerialInterface.thread worker
         ∧ ((∃ other, other ≠ service
                      ∧ is_Some (SerialInterface.service_qs worker !! other)) →
            SerialInterface.alive worker' = SerialInterface.alive worker)
         ∧ ((∀ other, other ≠ service →
                      SerialInterface.service_qs worker !! other = None) →
            SerialInterface.alive worker' = false
            ∧ (SerialInterface.thread worker = SerialInterface.Running →
               ∀ env qs,
                 SerialInterface.step env qs worker' =
                 (qs, SerialInterface.set_thread
                        (SerialInterface.Terminated None) worker')))).
Proof.
  intros σ.
  assert (coherent σ) as Hcoh
    by apply perform_all_coherent, coherent_empty.
  split; [by apply coherent_one_live|]. split.
  - intros port service1 service2 between.
    destruct (new_spec σ port service1) as (self1 & σ1 & Hnew1 & Htable1 & _).
    destruct (new_spec (perform_all σ1 between) port service2)
      as (self2 & σ2 & Hnew2 & _ & Hsame & _).
    exists self1, σ1, self2, σ2. split; [done|]. split; [done|].
    apply Hsame. by apply perform_all_table.
  - intros self service w worker Htable Hworker.
    exists (Build_world (queue_store σ)
              (alter (SerialInterface.close_service service) w (interfaces σ))
              (serial_interfaces σ)),
           (SerialInterface.close_service service worker).
    split; [by apply close_service_spec|]. split.
    { cbn. by rewrite list_lookup_alter_eq, Hworker. }
    split; [apply close_service_service_qs|].
    split; [apply close_service_thread|].
    split; [apply close_service_others_remain|].
    intros Hlast. pose proof (close_service_last service worker Hlast) as Hal.
    split; [done|]. intros Hth env qs.
    apply step_after_close; [|done]. by rewrite close_service_thread.
Qed.

Lemma C8_one_worker_per_port_witness :
  (∃ σ' worker',
     SharedSerial.close_service dio_channel DIO
       (perform_all empty_world two_services) = Ok σ'
     ∧ interfaces σ' !! 0 = Some worker'
     ∧ SerialInterface.alive worker' = true)
  ∧ (∃ σ' worker',
       SharedSerial.close_service second_channel SPI
         (perform_all empty_world (two_services ++ [CloseService dio_channel DIO]))
         = Ok σ'
       ∧ interfaces σ' !! 0 = Some worker'
       ∧ SerialInterface.alive worker' = false
       ∧ ∀ env qs,
           SerialInterface.step env qs worker' =
           (qs, SerialInterface.set_thread (SerialInterface.Terminated None) worker')).
Proof.
  split.
  - destruct (C8_one_worker_per_port two_services) as (_ & _ & Hclose).
    destruct (Hclose dio_channel DIO 0
                (default (SerialInterface.init "")
                   (interfaces (perform_all empty_world two_services) !! 0)))
      as (σ' & worker' & Hc & Hl & _ & _ & Hkeep & _);
      [reflexivity|reflexivity|].
    exists σ', worker'. split; [exact Hc|]. split; [exact Hl|].
    rewrite Hkeep; [reflexivity|].
    exists SPI. split; [discriminate|]. exists 1. reflexivity.
  - destruct (C8_one_worker_per_port (two_services ++ [CloseService dio_channel DIO]))
      as (_ & _ & Hclose).
    destruct (Hclose second_channel SPI 0
                (default (SerialInterface.init "")
                   (interfaces (perform_all empty_world
                                  (two_services ++ [CloseService dio_channel DIO])) !! 0)))
      as (σ' & worker' & Hc & Hl & _ & _ & _ & Hlast);
      [reflexivity|reflexivity|].
    exists σ', worker'. split; [exact Hc|]. split; [exact Hl|].
    destruct Hlast as [Hal Hstep].
    + intros other Hne. destruct other; [done| |]; reflexivity.
    + split; [exact Hal|]. apply Hstep. reflexivity.
Defined.

(** * Further properties of the host module *)

Section Passes.

Import SerialInterface.

(** A pass changes neither the routing table nor the flag, the thread
    state or the port; it consumes the head of the input queue. *)
Lemma run_pass_frame (env : link) (qs : queues) (w : SerialInterface.t) :
  service_qs (run_pass env qs w).1.2 = service_qs w
  ∧ alive (run_pass env qs w).1.2 = alive w
  ∧ thread (run_pass env qs w).1.2 = thread w
  ∧ input_q (run_pass env qs w).1.2 = tail (input_q w).
Proof.
  unfold run_pass. repeat case_match; simplify_eq; done.
Qed.

Lemma put_lookup_ne (q q' : nat) (item : raw_response) (qs : queues) :
  q ≠ q' → put q item qs !! q' = qs !! q'.
Proof. intros Hne. unfold put. by apply list_lookup_alter_ne. Qed.

Lemma put_lookup_eq (q : nat) (item : raw_response) (qs : queues)
    (pending : list raw_response) :
  qs !! q = Some pending → put q item qs !! q = Some (pending ++ [item]).
Proof. intros Hq. unfold put. by rewrite list_lookup_alter_eq, Hq. Qed.

End Passes.

(** X1.  A pass of the worker loop changes at most one queue: the one
    that [next_response_q] names when the pass ends.  Every other
    queue of the process keeps its content. *)
Theorem X1_pass_touches_one_queue (env : link) (qs : queues)
    (self : SerialInterface.t) (q : nat) :
  SerialInterface.next_response_q (SerialInterface.run_pass env qs self).1.2 ≠ Some q →
  (SerialInterface.run_pass env qs self).1.1 !! q = qs !! q.
Proof.
  unfold SerialInterface.run_pass.
  repeat case_match; simplify_eq; cbn; try done;
    intros Hne; apply put_lookup_ne; congruence.
Qed.

Lemma X1_pass_touches_one_queue_witness :
  (SerialInterface.run_pass echoing [[]; [Lines ["kept"]]]
     (SerialInterface.set_input_q [Build_cmd_dict DIO DIO_SET (PStr "3 true")]
        (SerialInterface.register DIO 0
           (SerialInterface.start (SerialInterface.init "COM4"))))).1.1 !! 1
  = Some [Lines ["kept"]].
Proof.
  apply (X1_pass_touches_one_queue echoing [[]; [Lines ["kept"]]]
           (SerialInterface.set_input_q [Build_cmd_dict DIO DIO_SET (PStr "3 true")]
              (SerialInterface.register DIO 0
                 (SerialInterface.start (SerialInterface.init "COM4")))) 1).
  discriminate.
Defined.

(** X2.  Output that arrives while no request is pending is put on the
    queue of the service that sent the last request: after a pass that
    served a request of a service routed to queue [q], a pass that finds
    the input queue empty and reads the lines [ls] puts [ls] on [q]. *)
Theorem X2_unsolicited_to_last_requester (env1 env2 : link) (qs qs1 : queues)
    (self self1 : SerialInterface.t) (cmd : cmd_dict) (q : nat) :
  SerialInterface.input_q self = [cmd] →
  SerialInterface.service_qs self !! service cmd = Some q →
  SerialInterface.run_pass env1 qs self = (qs1, self1, None) →
  idle_lines env2 ≠ [] →
  SerialInterface.run_pass env2 qs1 self1 =
  (put q (Lines (idle_lines env2)) qs1, self1, None).
Proof.
  intros Hin Hq Hpass Hlines.
  assert (SerialInterface.input_q self1 = []
          ∧ SerialInterface.next_response_q self1 = Some q) as [Hin1 Hnext].
  { revert Hpass. unfold SerialInterface.run_pass. rewrite Hin.
    cbn [SerialInterface.input_q SerialInterface.set_input_q
         SerialInterface.service_qs].
    rewrite Hq. repeat case_match; intros; simplify_eq; done. }
  unfold SerialInterface.run_pass. rewrite Hin1, Hnext.
  by destruct (idle_lines env2).
Qed.

Lemma X2_unsolicited_to_last_requester_witness :
  SerialInterface.run_pass (Build_link true (λ _, None) ["boot message"])
    [[Lines ["DIO_SET 3 true" +:+ CRLF]]]
    (SerialInterface.run_pass echoing [[]]
       (SerialInterface.set_input_q [Build_cmd_dict DIO DIO_SET (PStr "3 true")]
          (SerialInterface.register DIO 0
             (SerialInterface.start (SerialInterface.init "COM4"))))).1.2 =
  (put 0 (Lines ["boot message"]) [[Lines ["DIO_SET 3 true" +:+ CRLF]]],
   (SerialInterface.run_pass echoing [[]]
       (SerialInterface.set_input_q [Build_cmd_dict DIO DIO_SET (PStr "3 true")]
          (SerialInterface.register DIO 0
             (SerialInterface.start (SerialInterface.init "COM4"))))).1.2,
   None).
Proof.
  apply (X2_unsolicited_to_last_requester echoing
           (Build_link true (λ _, None) ["boot message"]) [[]] _
           (SerialInterface.set_input_q [Build_cmd_dict DIO DIO_SET (PStr "3 true")]
              (SerialInterface.register DIO 0
                 (SerialInterface.start (SerialInterface.init "COM4"))))
           _ (Build_cmd_dict DIO DIO_SET (PStr "3 true")) 0).
  - reflexivity.
  - reflexivity.
  - reflexivity.
  - discriminate.
Defined.

Section Creation.

Import SerialInterface.

(** The two ways [SharedSerial.new] goes: the table has no worker for
    the port, or it has one. *)
Lemma new_fresh (σ : world) (port : string) (service : ConnectionType) :
  serial_interfaces σ !! port = None →
  SharedSerial.new port service σ =
  Ok (SharedSerial.mk port service (length (queue_store σ)) (length (interfaces σ)),
      Build_world (queue_store σ ++ [[]])
        (alter (register service (length (queue_store σ)))
           (length (interfaces σ)) (interfaces σ ++ [start (init port)]))
        (<[ port := length (interfaces σ) ]> (serial_interfaces σ))).
Proof.
  intros Htable. unfold SharedSerial.new, SharedSerial.obtain_serial_interface.
  cbn [queue_store interfaces serial_interfaces]. rewrite Htable.
  cbn [queue_store interfaces serial_interfaces]. by rewrite lookup_insert_eq.
Qed.

Lemma new_existing (σ : world) (port : string) (service : ConnectionType)
    (w : nat) :
  serial_interfaces σ !! port = Some w →
  SharedSerial.new port service σ =
  Ok (SharedSerial.mk port service (length (queue_store σ)) w,
      Build_world (queue_store σ ++ [[]])
        (alter (register service (length (queue_store σ))) w (interfaces σ))
        (serial_interfaces σ)).
Proof.
  intros Htable. unfold SharedSerial.new, SharedSerial.obtain_serial_interface.
  cbn [queue_store interfaces serial_interfaces]. rewrite Htable.
  cbn [queue_store interfaces serial_interfaces]. by rewrite Htable.
Qed.

Lemma fresh_worker_lookup (l : list SerialInterface.t) (port : string)
    (service : ConnectionType) (q : nat) :
  alter (register service q) (length l) (l ++ [start (init port)]) !! length l
  = Some (register service q (start (init port))).
Proof. by rewrite list_lookup_alter_eq, list_lookup_middle. Qed.

End Creation.

(** X3.  A worker that has served no request yet has no queue to
    forward to: when the worker created for a new port reads any
    output from the connection before the first request,
    [next_response_q] is still [None], the [put] raises
    [AttributeError], and the thread ends with the flag still raised
    and nothing delivered. *)
Theorem X3_unsolicited_before_first_request (σ : world) (port : string)
    (service : ConnectionType) (env : link) :
  serial_interfaces σ !! port = None →
  idle_lines env ≠ [] →
  ∃ self σ1 w,
    SharedSerial.new port service σ = Ok (self, σ1)
    ∧ interfaces
        (SharedSerial.worker_turn env (SharedSerial.serial_interface self) σ1)
        !! SharedSerial.serial_interface self = Some w
    ∧ SerialInterface.thread w = SerialInterface.Terminated (Some AttributeError)
    ∧ SerialInterface.alive w = true
    ∧ queue_store
        (SharedSerial.worker_turn env (SharedSerial.serial_interface self) σ1)
      = queue_store σ1.
Proof.
  intros Htable Hlines. do 2 eexists.
  exists (SerialInterface.set_thread
            (SerialInterface.Terminated (Some AttributeError))
            (SerialInterface.register service (length (queue_store σ))
               (SerialInterface.start (SerialInterface.init port)))).
  split; [by apply new_fresh|].
  unfold SharedSerial.worker_turn.
  cbn [SharedSerial.serial_interface interfaces queue_store serial_interfaces].
  rewrite fresh_worker_lookup.
  unfold SerialInterface.step, SerialInterface.run_pass. cbn.
  destruct (idle_lines env) as [|line lines]; [done|]. cbn.
  split; [|done].
  apply list_lookup_insert_eq. rewrite length_alter, length_app. cbn. lia.
Qed.

Lemma X3_unsolicited_before_first_request_witness :
  ∃ self σ1 w,
    SharedSerial.new "COM4" DIO empty_world = Ok (self, σ1)
    ∧ interfaces
        (SharedSerial.worker_turn (Build_link true (λ _, None) ["boot message"])
           (SharedSerial.serial_interface self) σ1)
        !! SharedSerial.serial_interface self = Some w
    ∧ SerialInterface.thread w = SerialInterface.Terminated (Some AttributeError)
    ∧ SerialInterface.alive w = true
    ∧ queue_store
        (SharedSerial.worker_turn (Build_link true (λ _, None) ["boot message"])
           (SharedSerial.serial_interface self) σ1)
      = queue_store σ1.
Proof.
  apply (X3_unsolicited_before_first_request empty_world "COM4" DIO
           (Build_link true (λ _, None) ["boot message"])).
  - reflexivity.
  - discriminate.
Defined.

(** ** Calls on any channel *)

Section Calls.

Import SerialInterface SharedSerial.

Lemma handle_command_unfold (env : link) (σ : world) (self : SharedSerial.t)
    (command : SerialCommand) (data : payload) :
  handle_command env self command data σ =
  (let σ1 := worker_turn env (serial_interface self)
               (submit self (Build_cmd_dict (SharedSerial.service self) command data) σ) in
   ((get (response_q self) σ1).2,
    clean_response
      match (get (response_q self) σ1).1 with
      | Some item => item
      | None => Text ""
      end)).
Proof.
  unfold handle_command. cbv zeta. destruct (get _ _) as [got σ'].
  cbn [fst snd]. by rewrite handle_command_result.
Qed.

Lemma get_item (q : nat) (σ : world) (item : raw_response)
    (pending : list raw_response) :
  queue_store σ !! q = Some (item :: pending) →
  get q σ = (Some item,
             Build_world (<[ q := pending ]> (queue_store σ)) (interfaces σ)
               (serial_interfaces σ)).
Proof. intros Hq. unfold get. by rewrite Hq. Qed.

Lemma get_empty (q : nat) (σ : world) :
  queue_store σ !! q = Some [] → get q σ = (None, σ).
Proof. intros Hq. unfold get. by rewrite Hq. Qed.

(** The turn of a worker that is running with the flag raised. *)
Lemma worker_turn_running (env : link) (σ : world) (self : SharedSerial.t)
    (w : SerialInterface.t) (message : cmd_dict) :
  interfaces σ !! serial_interface self = Some w →
  thread w = Running → alive w = true →
  worker_turn env (serial_interface self) (submit self message σ) =
  let '(qs, w', e) :=
    run_pass env (queue_store σ) (set_input_q (input_q w ++ [message]) w) in
  Build_world qs
    (<[ serial_interface self :=
          match e with
          | None => w'
          | Some e => set_thread (Terminated (Some e)) w'
          end ]> (interfaces σ))
    (serial_interfaces σ).
Proof.
  intros Hw Hth Hal.
  unfold worker_turn, submit. cbn [interfaces queue_store serial_interfaces].
  rewrite list_lookup_alter_eq, Hw. cbn [fmap option_fmap option_map].
  unfold step. cbn [thread alive set_input_q]. rewrite Hth, Hal.
  destruct (run_pass env (queue_store σ) (set_input_q (input_q w ++ [message]) w))
    as [[qs w'] [e|]];
    by rewrite !list_insert_alter, list_alter_alter_eq.
Qed.

(** The turn of a worker whose thread is not running: the message stays
    in the input queue. *)
Lemma worker_turn_not_running (env : link) (σ : world) (self : SharedSerial.t)
    (w : SerialInterface.t) (message : cmd_dict) :
  interfaces σ !! serial_interface self = Some w →
  thread w ≠ Running →
  worker_turn env (serial_interface self) (submit self message σ) =
  Build_world (queue_store σ)
    (<[ serial_interface self := set_input_q (input_q w ++ [message]) w ]>
       (interfaces σ))
    (serial_interfaces σ).
Proof.
  intros Hw Hth.
  unfold worker_turn, submit. cbn [interfaces queue_store serial_interfaces].
  rewrite list_lookup_alter_eq, Hw. cbn [fmap option_fmap option_map].
  unfold step. cbn [thread alive set_input_q].
  destruct (thread w); [|done|];
    by rewrite !list_insert_alter, list_alter_alter_eq.
Qed.

(** The turn of a running worker whose flag has been cleared. *)
Lemma worker_turn_cleared (env : link) (σ : world) (self : SharedSerial.t)
    (w : SerialInterface.t) (message : cmd_dict) :
  interfaces σ !! serial_interface self = Some w →
  thread w = Running → alive w = false →
  worker_turn env (serial_interface self) (submit self message σ) =
  Build_world (queue_store σ)
    (<[ serial_interface self :=
          set_thread (Terminated None) (set_input_q (input_q w ++ [message]) w) ]>
       (interfaces σ))
    (serial_interfaces σ).
Proof.
  intros Hw Hth Hal.
  unfold worker_turn, submit. cbn [interfaces queue_store serial_interfaces].
  rewrite list_lookup_alter_eq, Hw. cbn [fmap option_fmap option_map].
  unfold step. cbn [thread alive set_input_q]. rewrite Hth, Hal.
  by rewrite !list_insert_alter, list_alter_alter_eq.
Qed.

End Calls.

Section Arrival.

Import SerialInterface.

(** A text request whose write succeeds and whose reply lines arrive at
    poll [k]. *)
Lemma run_pass_arrival (env : link) (qs : queues) (w : SerialInterface.t)
    (cmd : cmd_dict) (pending : list cmd_dict) (q k : nat)
    (text first : string) (others : list string) :
  input_q w = cmd :: pending →
  service_qs w !! service cmd = Some q →
  data cmd = PStr text →
  port_open env = true →
  k < 20 →
  (∀ j, j < k → in_waiting env j = None) →
  in_waiting env k = Some (first :: others) →
  (run_pass env qs w).1.1 =
    put q (Lines (if decide (first = command_line (command cmd) text)
                  then others else first :: others)) qs
  ∧ (run_pass env qs w).2 = None
  ∧ written (run_pass env qs w).1.2 =
      written w ++ [command_line (command cmd) text].
Proof.
  intros Hin Hq Hdata Hopen Hk Hquiet Harrive.
  unfold run_pass, command_line. rewrite Hin. cbn -[poll put].
  rewrite Hq. cbn -[poll put]. rewrite Hdata.
  cbn -[poll put]. rewrite Hopen.
  rewrite (poll_arrival env _ k 20 0 first others Hk);
    [|intros j Hj; apply Hquiet; lia|done].
  done.
Qed.

End Arrival.

Section Delivery.

Import SerialInterface.

(** Polling raises only on an empty list of lines. *)
Lemma poll_no_raise (env : link) (serial_command_str : string)
    (remaining k : nat) (e : exn) (n : nat) :
  (∀ j, in_waiting env j ≠ Some []) →
  poll env serial_command_str k remaining ≠ (Raise e, n).
Proof.
  intros Hnonempty. revert k n.
  induction remaining as [|remaining IH]; intros k n; [done|].
  simpl. destruct (in_waiting env k) as [[|first others]|] eqn:Hk.
  - by destruct (Hnonempty k).
  - by case_decide.
  - destruct (poll env serial_command_str (S k) remaining) as [r m] eqn:Hpoll.
    intros [= -> <-]. by eapply IH.
Qed.

(** A text request on a channel at rest always ends with one item on
    the channel's queue, unless [readlines] returns an empty list. *)
Lemma run_pass_text_delivers (env : link) (σ : world) (self : SharedSerial.t)
    (w : SerialInterface.t) (command : SerialCommand) (text : string) :
  idle σ self = true →
  interfaces σ !! SharedSerial.serial_interface self = Some w →
  (∀ j, in_waiting env j ≠ Some []) →
  ∃ item w',
    run_pass env (queue_store σ)
      (set_input_q [Build_cmd_dict (SharedSerial.service self) command (PStr text)] w) =
    (put (SharedSerial.response_q self) item (queue_store σ), w', None).
Proof.
  intros Hidle Hw Hnonempty.
  destruct (idle_inv σ self w Hidle Hw) as (_ & _ & _ & Hq & _).
  unfold run_pass. cbn -[poll put]. rewrite Hq. cbn -[poll put].
  destruct (port_open env); [|by do 2 eexists].
  destruct (poll env _ 0 20) as [[ls|e] n] eqn:Hpoll.
  - by do 2 eexists.
  - by apply poll_no_raise in Hpoll.
Qed.

(** After the item has been handed to the caller the channel is at
    rest again. *)
Lemma idle_after_delivery (env : link) (σ : world) (self : SharedSerial.t)
    (w w' : SerialInterface.t) (command : SerialCommand) (data : payload)
    (item : raw_response) :
  idle σ self = true →
  interfaces σ !! SharedSerial.serial_interface self = Some w →
  run_pass env (queue_store σ)
    (set_input_q [Build_cmd_dict (SharedSerial.service self) command data] w) =
    (put (SharedSerial.response_q self) item (queue_store σ), w', None) →
  idle (SharedSerial.handle_command env self command data σ).1 self = true
  ∧ (SharedSerial.handle_command env self command data σ).2 = clean_response item.
Proof.
  intros Hidle Hw Hpass.
  destruct (idle_inv σ self w Hidle Hw) as (Hth & Hal & Hin & Hq & Hqs).
  pose proof (run_pass_frame env (queue_store σ)
                (set_input_q [Build_cmd_dict (SharedSerial.service self) command data] w))
    as (Fqs & Fal & Fth & Fin).
  rewrite Hpass in Fqs, Fal, Fth, Fin. cbn in Fqs, Fal, Fth, Fin.
  rewrite handle_command_unfold. cbv zeta.
  rewrite (worker_turn_submit env σ self w _ Hidle Hw), Hpass.
  erewrite get_item;
    [|cbn [queue_store]; by apply (put_lookup_eq _ _ _ [])]. cbn [fst snd app].
  split; [|done].
  unfold idle. cbn [interfaces queue_store].
  rewrite list_lookup_insert_eq by by eapply lookup_lt_Some.
  rewrite Fth, Hth, Fal, Hal, Fin, Fqs, Hq.
  rewrite list_lookup_insert_eq.
  - rewrite bool_decide_eq_true_2; done.
  - unfold put. rewrite length_alter. by eapply lookup_lt_Some.
Qed.

End Delivery.

(** The reply to a call on a channel at rest. *)
Lemma handle_command_reply (env : link) (σ : world)
    (self : SharedSerial.t) (command : SerialCommand) (text first : string)
    (others : list string) (k : nat) :
  idle σ self = true →
  port_open env = true →
  k < 20 →
  (∀ j, j < k → in_waiting env j = None) →
  in_waiting env k = Some (first :: others) →
  (SharedSerial.handle_command env self command (PStr text) σ).2 =
  clean_response
    (Lines (if decide (first = command_line command text)
            then others else first :: others)).
Proof.
  intros Hidle Hopen Hk Hquiet Harrive.
  destruct (idle_worker σ self Hidle) as [w Hw].
  destruct (idle_inv σ self w Hidle Hw) as (_ & _ & _ & Hq & _).
  destruct (run_pass_arrival env (queue_store σ)
              (SerialInterface.set_input_q
                 [Build_cmd_dict (SharedSerial.service self) command (PStr text)] w)
              (Build_cmd_dict (SharedSerial.service self) command (PStr text))
              [] (SharedSerial.response_q self) k text first others)
    as (Hqs & He & _); try done.
  destruct (SerialInterface.run_pass env (queue_store σ) _) as [[qs' w'] e] eqn:Hpass.
  cbn in Hqs, He. subst qs' e.
  by destruct (idle_after_delivery env σ self w w' command (PStr text) _ Hidle Hw Hpass).
Qed.

(** X4.  A whole call on a channel at rest whose write succeeds and
    whose reply lines arrive within the twenty polls: [handle_command]
    returns the classification of the lines that follow the echo of
    the command line, or of all the lines when the first is not that
    echo. *)
Theorem X4_call_classifies_reply (env : link) (σ : world)
    (self : SharedSerial.t) (command : SerialCommand) (text first : string)
    (others : list string) (k : nat) :
  idle σ self = true →
  port_open env = true →
  k < 20 →
  (∀ j, j < k → in_waiting env j = None) →
  in_waiting env k = Some (first :: others) →
  (SharedSerial.handle_command env self command (PStr text) σ).2 =
  clean_response
    (Lines (if decide (first = command_line command text)
            then others else first :: others)).
Proof.
  intros Hidle Hopen Hk Hquiet Harrive.
  destruct (idle_worker σ self Hidle) as [w Hw].
  destruct (idle_inv σ self w Hidle Hw) as (_ & _ & _ & Hq & _).
  destruct (run_pass_arrival env (queue_store σ)
              (SerialInterface.set_input_q
                 [Build_cmd_dict (SharedSerial.service self) command (PStr text)] w)
              (Build_cmd_dict (SharedSerial.service self) command (PStr text))
              [] (SharedSerial.response_q self) k text first others)
    as (Hqs & He & _); try done.
  destruct (SerialInterface.run_pass env (queue_store σ) _) as [[qs' w'] e] eqn:Hpass.
  cbn in Hqs, He. subst qs' e.
  by destruct (idle_after_delivery env σ self w w' command (PStr text) _ Hidle Hw Hpass).
Qed.

Lemma X4_call_classifies_reply_witness :
  (SharedSerial.handle_command echoing dio_channel DIO_SET (PStr "3 true") dio_world).2 =
  Ok (envelope DIO_SET (VStr "3 true")).
Proof.
  apply (X4_call_classifies_reply echoing dio_world dio_channel DIO_SET "3 true"
           ("DIO_SET 3 true" +:+ CRLF) ["DIO_SET 3 true" +:+ CRLF] 2).
  - reflexivity.
  - reflexivity.
  - lia.
  - intros j Hj. destruct j as [|[|j]]; [reflexivity|reflexivity|lia].
  - reflexivity.
Defined.

(** X5.  The pass that serves a text request leaves the channel
    usable.  On a channel at rest, when the worker's next pass is the
    one that takes the request, and in that pass the write is refused,
    or all twenty polls find nothing, or lines that decode arrive at
    some poll, [readlines] never returning an empty list, then the
    worker is still running with nothing pending and the channel's
    queue is empty again when [handle_command] ends, also when the
    classification raised.  Output read by a pass before the request is
    taken, and bytes that do not decode, are outside the statement. *)
Theorem X5_channel_at_rest_again (env : link) (σ : world)
    (self : SharedSerial.t) (command : SerialCommand) (text : string) :
  idle σ self = true →
  (∀ j, in_waiting env j ≠ Some []) →
  idle (SharedSerial.handle_command env self command (PStr text) σ).1 self = true.
Proof.
  intros Hidle Hnonempty.
  destruct (idle_worker σ self Hidle) as [w Hw].
  destruct (run_pass_text_delivers env σ self w command text Hidle Hw Hnonempty)
    as (item & w' & Hpass).
  by destruct (idle_after_delivery env σ self w w' command (PStr text) item
                 Hidle Hw Hpass).
Qed.

Lemma X5_channel_at_rest_again_witness :
  idle (SharedSerial.handle_command silent dio_channel VERSION (PStr "") dio_world).1
    dio_channel = true.
Proof.
  apply (X5_channel_at_rest_again silent dio_world dio_channel VERSION "").
  - reflexivity.
  - intros j. discriminate.
Defined.

Section Dead.

Import SerialInterface.

Lemma dead_inv (σ : world) (self : SharedSerial.t) :
  dead σ self = true →
  ∃ w cause,
    interfaces σ !! SharedSerial.serial_interface self = Some w
    ∧ thread w = Terminated cause
    ∧ queue_store σ !! SharedSerial.response_q self = Some [].
Proof.
  unfold dead.
  destruct (interfaces σ !! SharedSerial.serial_interface self) as [w|]; [|done].
  destruct (thread w) as [| |cause] eqn:Hth; try done.
  destruct (queue_store σ !! SharedSerial.response_q self) as [[|? ?]|]; try done.
  intros _. by exists w, cause.
Qed.

Lemma no_response_text :
  clean_response (Text "") =
  Ok (envelope ERROR (VDict {[ "error" := "No response from MCU" ]})).
Proof. done. Qed.

End Dead.

(** X6.  Once the worker thread has ended, by an exception or by the
    loop test, a call through a channel with an empty queue only
    appends the request to the input queue: [handle_command] returns
    the envelope for no response, nothing is written to the connection,
    and the channel is in the same condition afterwards, so every later
    call ends the same way. *)
Theorem X6_dead_worker_no_response (env : link) (σ : world)
    (self : SharedSerial.t) (command : SerialCommand) (data : payload) :
  dead σ self = true →
  (SharedSerial.handle_command env self command data σ).2 =
    Ok (envelope ERROR (VDict {[ "error" := "No response from MCU" ]}))
  ∧ dead (SharedSerial.handle_command env self command data σ).1 self = true
  ∧ ∃ w w',
      interfaces σ !! SharedSerial.serial_interface self = Some w
      ∧ interfaces (SharedSerial.handle_command env self command data σ).1
          !! SharedSerial.serial_interface self = Some w'
      ∧ SerialInterface.written w' = SerialInterface.written w
      ∧ SerialInterface.input_q w' =
          SerialInterface.input_q w
          ++ [Build_cmd_dict (SharedSerial.service self) command data].
Proof.
  intros Hdead. destruct (dead_inv σ self Hdead) as (w & cause & Hw & Hth & Hqs).
  rewrite handle_command_unfold. cbv zeta.
  rewrite (worker_turn_not_running env σ self w _ Hw) by by rewrite Hth.
  rewrite get_empty by done. cbn [fst snd].
  assert (SharedSerial.serial_interface self < length (interfaces σ)) as Hlt
    by by eapply lookup_lt_Some.
  split; [done|]. split.
  - unfold dead. cbn [interfaces queue_store].
    rewrite list_lookup_insert_eq by done. cbn. by rewrite Hth, Hqs.
  - exists w. eexists. split; [done|]. split.
    + cbn [interfaces]. by apply list_lookup_insert_eq.
    + done.
Qed.

Lemma X6_dead_worker_no_response_witness :
  (SharedSerial.handle_command silent spi_channel SPI_SEND (PStr "de ad")
     (SpiIo.send_message silent spi_channel [Init.Byte.xde; Init.Byte.xad] spi_world).1).2 =
    Ok (envelope ERROR (VDict {[ "error" := "No response from MCU" ]}))
  ∧ dead (SharedSerial.handle_command silent spi_channel SPI_SEND (PStr "de ad")
            (SpiIo.send_message silent spi_channel [Init.Byte.xde; Init.Byte.xad] spi_world).1).1
       spi_channel = true
  ∧ ∃ w w',
      interfaces (SpiIo.send_message silent spi_channel [Init.Byte.xde; Init.Byte.xad] spi_world).1
        !! 0 = Some w
      ∧ interfaces
          (SharedSerial.handle_command silent spi_channel SPI_SEND (PStr "de ad")
             (SpiIo.send_message silent spi_channel [Init.Byte.xde; Init.Byte.xad] spi_world).1).1
          !! 0 = Some w'
      ∧ SerialInterface.written w' = SerialInterface.written w
      ∧ SerialInterface.input_q w' =
          SerialInterface.input_q w ++ [Build_cmd_dict SPI SPI_SEND (PStr "de ad")].
Proof.
  apply (X6_dead_worker_no_response silent
           (SpiIo.send_message silent spi_channel [Init.Byte.xde; Init.Byte.xad] spi_world).1
           spi_channel SPI_SEND (PStr "de ad")).
  reflexivity.
Defined.

(** X7.  A request for a service that the worker does not route, as
    after the channel closed its service while another service keeps
    the worker alive, raises [KeyError] inside the worker thread: the
    thread ends without writing, the caller gets the envelope for no
    response, and every channel of that worker is dead from then on. *)
Theorem X7_unrouted_service_ends_worker (env : link) (σ : world)
    (self : SharedSerial.t) (w : SerialInterface.t)
    (command : SerialCommand) (data : payload) :
  interfaces σ !! SharedSerial.serial_interface self = Some w →
  SerialInterface.thread w = SerialInterface.Running →
  SerialInterface.alive w = true →
  SerialInterface.input_q w = [] →
  SerialInterface.service_qs w !! SharedSerial.service self = None →
  queue_store σ !! SharedSerial.response_q self = Some [] →
  (SharedSerial.handle_command env self command data σ).2 =
    Ok (envelope ERROR (VDict {[ "error" := "No response from MCU" ]}))
  ∧ (∃ w',
       interfaces (SharedSerial.handle_command env self command data σ).1
         !! SharedSerial.serial_interface self = Some w'
       ∧ SerialInterface.thread w' =
           SerialInterface.Terminated
             (Some (KeyError (ConnectionType_str (SharedSerial.service self))))
       ∧ SerialInterface.written w' = SerialInterface.written w)
  ∧ (∀ other,
       SharedSerial.serial_interface other = SharedSerial.serial_interface self →
       queue_store σ !! SharedSerial.response_q other = Some [] →
       dead (SharedSerial.handle_command env self command data σ).1 other = true).
Proof.
  intros Hw Hth Hal Hin Hroute Hqs.
  rewrite handle_command_unfold. cbv zeta.
  rewrite (worker_turn_running env σ self w _ Hw Hth Hal), Hin.
  unfold SerialInterface.run_pass. cbn -[put]. rewrite Hroute.
  rewrite get_empty by done. cbn [fst snd].
  assert (SharedSerial.serial_interface self < length (interfaces σ)) as Hlt
    by by eapply lookup_lt_Some.
  split; [done|]. split.
  - eexists. split; [cbn [interfaces]; by apply list_lookup_insert_eq|]. done.
  - intros other Hsame Hother. unfold dead. cbn [interfaces queue_store].
    rewrite Hsame, list_lookup_insert_eq by done. cbn. by rewrite Hother.
Qed.

Lemma X7_unrouted_service_ends_worker_witness :
  (SharedSerial.handle_command silent dio_channel DIO_READ (PStr "1")
     (perform_all empty_world (two_services ++ [CloseService dio_channel DIO]))).2 =
    Ok (envelope ERROR (VDict {[ "error" := "No response from MCU" ]}))
  ∧ (∃ w',
       interfaces
         (SharedSerial.handle_command silent dio_channel DIO_READ (PStr "1")
            (perform_all empty_world (two_services ++ [CloseService dio_channel DIO]))).1
         !! 0 = Some w'
       ∧ SerialInterface.thread w' =
           SerialInterface.Terminated (Some (KeyError "ConnectionType.DIO"))
       ∧ SerialInterface.written w' = [])
  ∧ (∀ other,
       SharedSerial.serial_interface other = 0 →
       queue_store (perform_all empty_world (two_services ++ [CloseService dio_channel DIO]))
         !! SharedSerial.response_q other = Some [] →
       dead (SharedSerial.handle_command silent dio_channel DIO_READ (PStr "1")
               (perform_all empty_world (two_services ++ [CloseService dio_channel DIO]))).1
            other = true).
Proof.
  destruct (X7_unrouted_service_ends_worker silent
              (perform_all empty_world (two_services ++ [CloseService dio_channel DIO]))
              dio_channel
              (default (SerialInterface.init "")
                 (interfaces (perform_all empty_world
                                (two_services ++ [CloseService dio_channel DIO])) !! 0))
              DIO_READ (PStr "1"))
    as (Hresult & (w' & Hw' & Hth & Hwritten) & Hdead); [reflexivity..|].
  split; [exact Hresult|]. split; [|exact Hdead].
  exists w'. split; [exact Hw'|]. split; [exact Hth|exact Hwritten].
Defined.

(** X8.  A stopped worker is never started again.  Once the flag of the
    worker of a port has been cleared, a channel created on that port
    gets the same worker object, and every call through the new channel
    returns the envelope for no response without anything being
    written. *)
Theorem X8_stopped_worker_not_restarted (σ : world) (port : string)
    (w : nat) (worker : SerialInterface.t) (service : ConnectionType)
    (env : link) (command : SerialCommand) (data : payload) :
  serial_interfaces σ !! port = Some w →
  interfaces σ !! w = Some worker →
  SerialInterface.alive worker = false →
  ∃ self σ1,
    SharedSerial.new port service σ = Ok (self, σ1)
    ∧ SharedSerial.serial_interface self = w
    ∧ (SharedSerial.handle_command env self command data σ1).2 =
      Ok (envelope ERROR (VDict {[ "error" := "No response from MCU" ]}))
    ∧ ∃ worker',
        interfaces (SharedSerial.handle_command env self command data σ1).1 !! w
          = Some worker'
        ∧ SerialInterface.alive worker' = false
        ∧ SerialInterface.written worker' = SerialInterface.written worker.
Proof.
  intros Htable Hworker Hal.
  do 2 eexists. split; [by apply new_existing|]. split; [done|].
  set (self := SharedSerial.mk port service (length (queue_store σ)) w).
  set (σ1 := Build_world _ _ _).
  assert (w < length (interfaces σ)) as Hlt by by eapply lookup_lt_Some.
  assert (interfaces σ1 !! SharedSerial.serial_interface self =
          Some (SerialInterface.register service (length (queue_store σ)) worker))
    as Hw1.
  { subst σ1 self. cbn. by rewrite list_lookup_alter_eq, Hworker. }
  assert (queue_store σ1 !! SharedSerial.response_q self = Some []) as Hq1.
  { subst σ1 self. cbn. apply list_lookup_middle. done. }
  assert (w < length (interfaces σ1)) as Hlt1.
  { subst σ1. cbn. by rewrite length_alter. }
  rewrite handle_command_unfold. cbv zeta.
  destruct (SerialInterface.thread worker) as [| |cause] eqn:Hth.
  - rewrite (worker_turn_not_running env σ1 self _ _ Hw1) by (cbn; by rewrite Hth).
    rewrite get_empty by done. cbn [fst snd]. split; [done|].
    eexists. split; [cbn [interfaces]; by apply list_lookup_insert_eq|]. done.
  - rewrite (worker_turn_cleared env σ1 self _ _ Hw1) by done.
    rewrite get_empty by done. cbn [fst snd]. split; [done|].
    eexists. split; [cbn [interfaces]; by apply list_lookup_insert_eq|]. done.
  - rewrite (worker_turn_not_running env σ1 self _ _ Hw1) by (cbn; by rewrite Hth).
    rewrite get_empty by done. cbn [fst snd]. split; [done|].
    eexists. split; [cbn [interfaces]; by apply list_lookup_insert_eq|]. done.
Qed.

Lemma X8_stopped_worker_not_restarted_witness :
  ∃ self σ1,
    SharedSerial.new "COM4" RELAY closed_world = Ok (self, σ1)
    ∧ SharedSerial.serial_interface self = 0
    ∧ (SharedSerial.handle_command echoing self RELAY_LIST (PStr "") σ1).2 =
      Ok (envelope ERROR (VDict {[ "error" := "No response from MCU" ]}))
    ∧ ∃ worker',
        interfaces (SharedSerial.handle_command echoing self RELAY_LIST (PStr "") σ1).1 !! 0
          = Some worker'
        ∧ SerialInterface.alive worker' = false
        ∧ SerialInterface.written worker' = [].
Proof.
  destruct (X8_stopped_worker_not_restarted closed_world "COM4" 0
              (default (SerialInterface.init "") (interfaces closed_world !! 0))
              RELAY echoing RELAY_LIST (PStr ""))
    as (self & σ1 & Hnew & Hsame & Hresult & worker' & Hworker' & Hal & Hwritten);
    [reflexivity..|].
  exists self, σ1. split; [exact Hnew|]. split; [exact Hsame|].
  split; [exact Hresult|]. exists worker'.
  split; [exact Hworker'|]. split; [exact Hal|exact Hwritten].
Defined.

(** X9.  Closing a service through a channel never raises: the table
    keeps the entry of every port for which a channel was created,
    whatever the process does in between, also when the service was
    closed before or was never registered. *)
Theorem X9_close_service_never_raises (σ σ1 : world) (port : string)
    (service closed : ConnectionType) (self : SharedSerial.t)
    (between : list op) :
  SharedSerial.new port service σ = Ok (self, σ1) →
  ∃ σ', SharedSerial.close_service self closed (perform_all σ1 between) = Ok σ'.
Proof.
  intros Hnew.
  assert (serial_interfaces σ1 !! SharedSerial.serial_port self
          = Some (SharedSerial.serial_interface self)) as Htable.
  { destruct (serial_interfaces σ !! port) as [w|] eqn:Hport.
    - rewrite (new_existing σ port service w Hport) in Hnew.
      injection Hnew as <- <-. done.
    - rewrite (new_fresh σ port service Hport) in Hnew.
      injection Hnew as <- <-. cbn. by rewrite lookup_insert_eq. }
  eexists. apply close_service_spec. by apply perform_all_table.
Qed.

Lemma X9_close_service_never_raises_witness :
  ∃ σ', SharedSerial.close_service dio_channel RELAY
          (perform_all dio_world [CloseService dio_channel DIO;
                                  CloseService dio_channel DIO]) = Ok σ'.
Proof.
  apply (X9_close_service_never_raises empty_world dio_world "COM4" DIO RELAY
           dio_channel [CloseService dio_channel DIO; CloseService dio_channel DIO]).
  reflexivity.
Defined.

Section Routing.

Import SerialInterface.

(** A call through a channel whose service the worker routes to another
    queue: the reply goes to that queue, and the caller finds its own
    queue empty. *)
Lemma misrouted_call (env : link) (σ : world) (self : SharedSerial.t)
    (w : SerialInterface.t) (q' k : nat) (pending : list raw_response)
    (command : SerialCommand) (text first : string) (others : list string) :
  interfaces σ !! SharedSerial.serial_interface self = Some w →
  thread w = Running → alive w = true → input_q w = [] →
  service_qs w !! SharedSerial.service self = Some q' →
  q' ≠ SharedSerial.response_q self →
  queue_store σ !! SharedSerial.response_q self = Some [] →
  queue_store σ !! q' = Some pending →
  port_open env = true →
  k < 20 →
  (∀ j, j < k → in_waiting env j = None) →
  in_waiting env k = Some (first :: others) →
  (SharedSerial.handle_command env self command (PStr text) σ).2 =
    Ok (envelope ERROR (VDict {[ "error" := "No response from MCU" ]}))
  ∧ queue_store (SharedSerial.handle_command env self command (PStr text) σ).1 !! q'
    = Some (pending ++
            [Lines (if decide (first = command_line command text)
                    then others else first :: others)]).
Proof.
  intros Hw Hth Hal Hin Hroute Hne Hown Hother Hopen Hk Hquiet Harrive.
  rewrite handle_command_unfold. cbv zeta.
  rewrite (worker_turn_running env σ self w _ Hw Hth Hal), Hin. cbn [app].
  destruct (run_pass_arrival env (queue_store σ)
              (set_input_q
                 [Build_cmd_dict (SharedSerial.service self) command (PStr text)] w)
              (Build_cmd_dict (SharedSerial.service self) command (PStr text))
              [] q' k text first others)
    as (Hqs & He & _); try done.
  destruct (run_pass env (queue_store σ) _) as [[qs' w'] e].
  cbn in Hqs, He. subst qs' e.
  rewrite get_empty by (cbn [queue_store]; by rewrite put_lookup_ne).
  cbn [fst snd queue_store]. split; [done|]. by apply put_lookup_eq.
Qed.

End Routing.

(** X10.  One queue per service and worker: when two channels are
    created for the same new port and the same service, the second
    registration replaces the first.  A call through the first channel
    then returns the envelope for no response although the device
    answered, and the answer is left on the queue of the second
    channel. *)
Theorem X10_second_channel_takes_replies (σ : world) (port : string)
    (service : ConnectionType) (env : link) (command : SerialCommand)
    (text first : string) (others : list string) (k : nat) :
  serial_interfaces σ !! port = None →
  port_open env = true →
  k < 20 →
  (∀ j, j < k → in_waiting env j = None) →
  in_waiting env k = Some (first :: others) →
  ∃ self1 σ1 self2 σ2,
    SharedSerial.new port service σ = Ok (self1, σ1)
    ∧ SharedSerial.new port service σ1 = Ok (self2, σ2)
    ∧ SharedSerial.response_q self2 ≠ SharedSerial.response_q self1
    ∧ (SharedSerial.handle_command env self1 command (PStr text) σ2).2 =
      Ok (envelope ERROR (VDict {[ "error" := "No response from MCU" ]}))
    ∧ queue_store (SharedSerial.handle_command env self1 command (PStr text) σ2).1
        !! SharedSerial.response_q self2
      = Some [Lines (if decide (first = command_line command text)
                     then others else first :: others)].
Proof.
  intros Htable Hopen Hk Hquiet Harrive.
  do 4 eexists. split; [by apply new_fresh|].
  split; [apply new_existing; cbn; by rewrite lookup_insert_eq|].
  cbn [SharedSerial.response_q queue_store interfaces serial_interfaces].
  split; [rewrite length_app; cbn; lia|].
  eapply (misrouted_call env _ _
            (SerialInterface.register service (length (queue_store σ ++ [[]]))
               (SerialInterface.register service (length (queue_store σ))
                  (SerialInterface.start (SerialInterface.init port))))
            (length (queue_store σ ++ [[]])) k []); try done.
  - cbn. by rewrite list_lookup_alter_eq, fresh_worker_lookup.
  - cbn. by rewrite lookup_insert_eq.
  - cbn. rewrite length_app. cbn. lia.
  - cbn. rewrite lookup_app_l by (rewrite length_app; cbn; lia).
    by apply list_lookup_middle.
  - cbn. by apply list_lookup_middle.
Qed.

Lemma X10_second_channel_takes_replies_witness :
  ∃ self1 σ1 self2 σ2,
    SharedSerial.new "COM4" DIO empty_world = Ok (self1, σ1)
    ∧ SharedSerial.new "COM4" DIO σ1 = Ok (self2, σ2)
    ∧ SharedSerial.response_q self2 ≠ SharedSerial.response_q self1
    ∧ (SharedSerial.handle_command echoing self1 DIO_SET (PStr "3 true") σ2).2 =
      Ok (envelope ERROR (VDict {[ "error" := "No response from MCU" ]}))
    ∧ queue_store (SharedSerial.handle_command echoing self1 DIO_SET (PStr "3 true") σ2).1
        !! SharedSerial.response_q self2
      = Some [Lines ["DIO_SET 3 true" +:+ CRLF]].
Proof.
  apply (X10_second_channel_takes_replies empty_world "COM4" DIO echoing DIO_SET
           "3 true" ("DIO_SET 3 true" +:+ CRLF) ["DIO_SET 3 true" +:+ CRLF] 2).
  - reflexivity.
  - reflexivity.
  - lia.
  - intros j Hj. destruct j as [|[|j]]; [reflexivity|reflexivity|lia].
  - reflexivity.
Defined.

Section Order.

Import SerialInterface.

(** One turn on a pending text request whose service is routed and
    whose write succeeds. *)
Lemma step_text (env : link) (qs : queues) (w : SerialInterface.t)
    (s : ConnectionType) (c : SerialCommand) (text : string)
    (pending : list cmd_dict) :
  thread w = Running → alive w = true →
  input_q w = Build_cmd_dict s c (PStr text) :: pending →
  is_Some (service_qs w !! s) →
  port_open env = true →
  (∀ j, in_waiting env j ≠ Some []) →
  thread (step env qs w).2 = Running
  ∧ alive (step env qs w).2 = true
  ∧ input_q (step env qs w).2 = pending
  ∧ service_qs (step env qs w).2 = service_qs w
  ∧ written (step env qs w).2 = written w ++ [command_line c text].
Proof.
  intros Hth Hal Hin [q Hq] Hopen Hnonempty.
  unfold step, run_pass, command_line. rewrite Hth, Hal, Hin.
  cbn -[poll put]. rewrite Hq. cbn -[poll put]. rewrite Hopen.
  destruct (poll env _ 0 20) as [[ls|e] n] eqn:Hpoll.
  - done.
  - by apply poll_no_raise in Hpoll.
Qed.

End Order.

(** X11.  Requests are served in the order in which they were put on
    the input queue: a running worker that holds text requests of
    routed services, given one turn per request on a connection that
    accepts every write and on which [readlines] never returns an
    empty list when [in_waiting] is set, writes exactly their command
    lines, first submitted first, and ends with an empty input queue,
    still running. *)
Theorem X11_requests_served_in_order
    (requests : list (ConnectionType * SerialCommand * string))
    (envs : list link) (qs : queues) (self : SerialInterface.t) :
  SerialInterface.thread self = SerialInterface.Running →
  SerialInterface.alive self = true →
  SerialInterface.input_q self =
    (λ r, Build_cmd_dict r.1.1 r.1.2 (PStr r.2)) <$> requests →
  length envs = length requests →
  Forall (λ env, port_open env = true ∧ ∀ j, in_waiting env j ≠ Some []) envs →
  Forall (λ r, is_Some (SerialInterface.service_qs self !! r.1.1)) requests →
  SerialInterface.written (run_turns envs qs self).2 =
    SerialInterface.written self ++ ((λ r, command_line r.1.2 r.2) <$> requests)
  ∧ SerialInterface.input_q (run_turns envs qs self).2 = []
  ∧ SerialInterface.thread (run_turns envs qs self).2 = SerialInterface.Running.
Proof.
  revert envs qs self.
  induction requests as [|[[s c] text] requests IH];
    intros envs qs self Hth Hal Hin Hlen Henvs Hrouted.
  - destruct envs; [|done]. cbn. by rewrite app_nil_r.
  - destruct envs as [|env envs]; [done|].
    inversion_clear Henvs as [|? ? [Hopen Hnonempty] Henvs'].
    inversion_clear Hrouted as [|? ? Hs Hrouted'].
    destruct (step_text env qs self s c text _ Hth Hal Hin Hs Hopen Hnonempty)
      as (Hth1 & Hal1 & Hin1 & Hqs1 & Hwritten1).
    cbn [run_turns].
    destruct (SerialInterface.step env qs self) as [qs1 self1].
    cbn [snd] in Hth1, Hal1, Hin1, Hqs1, Hwritten1.
    destruct (IH envs qs1 self1) as (Hwritten & Hin' & Hth'); try done.
    + cbn in Hlen. lia.
    + by rewrite Hqs1.
    + rewrite Hwritten, Hwritten1, <- app_assoc. done.
Qed.

Lemma X11_requests_served_in_order_witness :
  SerialInterface.written
    (run_turns [silent; echoing] [[]; []]
       (SerialInterface.set_input_q
          [Build_cmd_dict DIO DIO_SET (PStr "3 true");
           Build_cmd_dict SPI SPI_SEND (PStr "de ad")]
          (SerialInterface.register SPI 1
             (SerialInterface.register DIO 0
                (SerialInterface.start (SerialInterface.init "COM4")))))).2 =
    ["DIO_SET 3 true" +:+ CRLF; "SPI_SEND de ad" +:+ CRLF]
  ∧ SerialInterface.input_q
      (run_turns [silent; echoing] [[]; []]
         (SerialInterface.set_input_q
            [Build_cmd_dict DIO DIO_SET (PStr "3 true");
             Build_cmd_dict SPI SPI_SEND (PStr "de ad")]
            (SerialInterface.register SPI 1
               (SerialInterface.register DIO 0
                  (SerialInterface.start (SerialInterface.init "COM4")))))).2 = []
  ∧ SerialInterface.thread
      (run_turns [silent; echoing] [[]; []]
         (SerialInterface.set_input_q
            [Build_cmd_dict DIO DIO_SET (PStr "3 true");
             Build_cmd_dict SPI SPI_SEND (PStr "de ad")]
            (SerialInterface.register SPI 1
               (SerialInterface.register DIO 0
                  (SerialInterface.start (SerialInterface.init "COM4")))))).2
    = SerialInterface.Running.
Proof.
  apply (X11_requests_served_in_order
           [(DIO, DIO_SET, "3 true"); (SPI, SPI_SEND, "de ad")]
           [silent; echoing] [[]; []]).
  - reflexivity.
  - reflexivity.
  - reflexivity.
  - reflexivity.
  - repeat constructor; intros j; cbn; try discriminate.
    destruct (j =? 2); discriminate.
  - repeat constructor; cbn; by eexists.
Defined.

(** The lines after the first only add the [extension] key. *)
Lemma clean_response_rest (first : string) (rest : list string) :
  rest ≠ [] →
  clean_response (Lines (first :: rest)) =
  match clean_response (Lines [first]) with
  | Ok response => Ok (<[ "extension" := VStr (Py.join LF rest) ]> response)
  | Raise e => Raise e
  end.
Proof.
  intros Hrest. unfold clean_response.
  change (items (Lines (first :: rest))) with (first :: rest).
  change (items (Lines [first])) with [first].
  cbv beta iota zeta.
  replace (1 <? length (first :: rest)) with true
    by by destruct rest.
  change (1 <? length [first]) with false. cbv iota.
  destruct (Py.contains "EXCEPTION:" (take 2 (Py.split first))); [done|].
  destruct (Py.split first) as [|field0 fields]; [done|].
  cbn. by destruct (by_name field0).
Qed.

(** X12.  The classification of the first line does not depend on the
    lines after it: with further lines the classifier returns the
    envelope of the first line alone plus the [extension] key holding
    the further lines joined by a newline, and raises exactly when it
    raises on the first line alone. *)
Theorem X12_extension_regardless_of_kind (first : string) (rest : list string) :
  rest ≠ [] →
  clean_response (Lines (first :: rest)) =
  match clean_response (Lines [first]) with
  | Ok response => Ok (<[ "extension" := VStr (Py.join LF rest) ]> response)
  | Raise e => Raise e
  end.
Proof.
  intros Hrest. unfold clean_response.
  change (items (Lines (first :: rest))) with (first :: rest).
  change (items (Lines [first])) with [first].
  cbv beta iota zeta.
  replace (1 <? length (first :: rest)) with true
    by by destruct rest.
  change (1 <? length [first]) with false. cbv iota.
  destruct (Py.contains "EXCEPTION:" (take 2 (Py.split first))); [done|].
  destruct (Py.split first) as [|field0 fields]; [done|].
  cbn. by destruct (by_name field0).
Qed.

Lemma X12_extension_regardless_of_kind_witness :
  clean_response (Lines ["RELAY_LIST"; "  0 true"; "  1 false"]) =
  Ok (<[ "extension" := VStr ("  0 true" +:+ LF +:+ "  1 false") ]>
        (envelope RELAY_LIST (VStr ""))).
Proof.
  apply (X12_extension_regardless_of_kind "RELAY_LIST" ["  0 true"; "  1 false"]).
  discriminate.
Defined.

(** X13.  A bare string is never classified: given any non-empty [str]
    where a list of lines is expected, the classifier takes the first
    character for the first line and raises, [IndexError] when that
    character is white space and [KeyError] on the character
    otherwise, since no member has a name of one character. *)
Theorem X13_bare_string_raises (c : ascii) (s : string) :
  clean_response (Text (String c s)) =
  Raise (if Py.isspace c then IndexError else KeyError (String c "")).
Proof.
  unfold clean_response.
  change (items (Text (String c s))) with (String c "" :: Py.chars s).
  cbv beta iota zeta. unfold Py.split. cbn [Py.split_from].
  destruct (Py.isspace c); cbn [Py.flush rev app string_of_list_ascii]; [done|].
  rewrite not_contains_take2; [|by intros [=]|done].
  cbn. rewrite by_name_unknown; [done|]. by intros [].
Qed.

Section Version.

(** The tokens [str.split()] returns are not empty. *)
Lemma split_from_nonempty (s : string) (word : list ascii) :
  Forall (λ token, token ≠ "") (Py.split_from word s).
Proof.
  assert (∀ word rest, Forall (λ token, token ≠ "") rest →
                       Forall (λ token : string, token ≠ "") (Py.flush word rest))
    as Hflush.
  { intros [|c word'] rest Hrest; [done|]. cbn [Py.flush].
    constructor; [|done]. intros Hempty.
    apply (f_equal list_ascii_of_string) in Hempty.
    rewrite list_ascii_of_string_of_list_ascii in Hempty. cbn in Hempty.
    by destruct (rev word'). }
  revert word. induction s as [|c s IH]; intros word; cbn [Py.split_from].
  - by apply Hflush.
  - destruct (Py.isspace c); [apply Hflush|]; apply IH.
Qed.

Lemma join_nonempty (sep field : string) (fields : list string) :
  field ≠ "" → Py.join sep (field :: fields) ≠ "".
Proof. intros Hfield. destruct field; [done|]. by destruct fields. Qed.

Lemma getitem_data (kind : SerialCommand) (d : value) (b : bool) (x : value) :
  getitem (if b then <[ "extension" := x ]> (envelope kind d) else envelope kind d)
    "data" = Ok d.
Proof. by destruct b. Qed.

End Version.

(** X14.  The driver version is asked for once.  On a channel at rest,
    when the first line of the reply to the [VERSION] request, after
    the echo if there is one, has the tokens [VERSION] followed by at
    least one token, the first of which is not the [EXCEPTION:]
    marker, the property [driver_version] returns those tokens joined
    by single spaces and stores them; with that value stored, it
    returns it again without sending anything, whatever the state of
    the process. *)
Theorem X14_driver_version_memoised (env : link) (σ : world)
    (self : SharedSerial.t) (first line : string)
    (others more fields : list string) (k : nat) :
  idle σ self = true →
  port_open env = true →
  k < 20 →
  (∀ j, j < k → in_waiting env j = None) →
  in_waiting env k = Some (first :: others) →
  (if decide (first = command_line VERSION "") then others else first :: others)
    = line :: more →
  Py.split line = "VERSION" :: fields →
  fields ≠ [] →
  head fields ≠ Some "EXCEPTION:" →
  (driver_version env self None σ).2 =
    Ok (VStr (Py.join " " fields), Some (VStr (Py.join " " fields)))
  ∧ ∀ env' σ',
      driver_version env' self (Some (VStr (Py.join " " fields))) σ' =
      (σ', Ok (VStr (Py.join " " fields), Some (VStr (Py.join " " fields)))).
Proof.
  intros Hidle Hopen Hk Hquiet Harrive Hreplied Hsplit Hfields Hhead. split.
  - pose proof (handle_command_reply env σ self VERSION "" first others k
                  Hidle Hopen Hk Hquiet Harrive) as Hreply.
    rewrite Hreplied in Hreply.
    rewrite (clean_response_member VERSION line more fields Hsplit) in Hreply
      by by apply not_contains_take2.
    unfold driver_version.
    destruct (SharedSerial.handle_command env self VERSION (PStr "") σ)
      as [σ' outcome].
    cbn [snd] in Hreply |- *. rewrite Hreply. cbn -[getitem].
    by rewrite getitem_data.
  - intros env' σ'. unfold driver_version.
    destruct fields as [|field fields']; [done|].
    assert (field ≠ "") as Hfield.
    { pose proof (split_from_nonempty line []) as Htokens.
      fold (Py.split line) in Htokens. rewrite Hsplit in Htokens.
      inversion_clear Htokens as [|? ? _ Htokens'].
      by inversion_clear Htokens' as [|? ? ? _]. }
    unfold truthy. rewrite bool_decide_eq_false_2; [done|].
    by apply join_nonempty.
Qed.

Lemma X14_driver_version_memoised_witness :
  (driver_version
     (Build_link true
        (λ k, if k =? 1 then Some ["VERSION " +:+ CRLF; "VERSION 0.0.1" +:+ CRLF] else None)
        [])
     dio_channel None dio_world).2 =
    Ok (VStr "0.0.1", Some (VStr "0.0.1"))
  ∧ ∀ env' σ',
      driver_version env' dio_channel (Some (VStr "0.0.1")) σ' =
      (σ', Ok (VStr "0.0.1", Some (VStr "0.0.1"))).
Proof.
  apply (X14_driver_version_memoised
           (Build_link true
              (λ k, if k =? 1 then Some ["VERSION " +:+ CRLF; "VERSION 0.0.1" +:+ CRLF]
                    else None) [])
           dio_world dio_channel ("VERSION " +:+ CRLF) ("VERSION 0.0.1" +:+ CRLF)
           ["VERSION 0.0.1" +:+ CRLF] [] ["0.0.1"] 1).
  - reflexivity.
  - reflexivity.
  - lia.
  - intros j Hj. destruct j as [|j]; [reflexivity|lia].
  - reflexivity.
  - reflexivity.
  - reflexivity.
  - discriminate.
  - discriminate.
Defined.

Section Bytes.

(** A request that carries [bytes], whatever the command. *)
Lemma bytes_call (env : link) (σ : world) (self : SharedSerial.t)
    (command : SerialCommand) (message : list Init.Byte.byte) :
  idle σ self = true →
  (SharedSerial.handle_command env self command (PBytes message) σ).2 =
    Ok (envelope ERROR (VDict {[ "error" := "No response from MCU" ]}))
  ∧ ∃ w w',
      interfaces σ !! SharedSerial.serial_interface self = Some w
      ∧ interfaces (SharedSerial.handle_command env self command (PBytes message) σ).1
          !! SharedSerial.serial_interface self = Some w'
      ∧ SerialInterface.thread w' = SerialInterface.Terminated (Some TypeError)
      ∧ SerialInterface.written w' = SerialInterface.written w.
Proof.
  intros Hidle. destruct (idle_worker σ self Hidle) as [w Hw].
  destruct (run_pass_bytes env σ self w command Hidle Hw message)
    as (w' & Hpass & Hwritten).
  destruct (handle_command_crashed env σ self w _ Hidle Hw _ _ Hpass)
    as (Hw1 & Hgot).
  assert ((SharedSerial.get (SharedSerial.response_q self)
             (SharedSerial.worker_turn env (SharedSerial.serial_interface self)
                (SharedSerial.submit self
                   (Build_cmd_dict (SharedSerial.service self) command
                      (PBytes message)) σ))).1 = None)
    as Hempty.
  { destruct (SharedSerial.get _ _) as [got σ']. exact Hgot. }
  split.
  - rewrite handle_command_snd, Hempty. by apply clean_response_empty.
  - exists w, (SerialInterface.set_thread
                 (SerialInterface.Terminated (Some TypeError)) w').
    rewrite handle_command_fst_empty by exact Hempty. by repeat split.
Qed.

End Bytes.

(** X15.  [receive_message] never reaches the device.  For a length
    outside [range(256)] building the payload raises [ValueError]
    before anything is submitted.  For a length inside, on a channel at
    rest, the payload is a [bytes] object, the worker thread ends with
    [TypeError] while building the command line, nothing is written,
    and the caller gets the envelope for no response. *)
Theorem X15_receive_message_never_writes (env : link) (σ : world)
    (self : SharedSerial.t) (receive_length : Z) :
  idle σ self = true →
  match receive_message env self receive_length σ with
  | None => ¬ (0 ≤ receive_length < 256)%Z
  | Some (σ', outcome) =>
      (0 ≤ receive_length < 256)%Z
      ∧ outcome = Ok (envelope ERROR (VDict {[ "error" := "No response from MCU" ]}))
      ∧ ∃ w w',
          interfaces σ !! SharedSerial.serial_interface self = Some w
          ∧ interfaces σ' !! SharedSerial.serial_interface self = Some w'
          ∧ SerialInterface.thread w' = SerialInterface.Terminated (Some TypeError)
          ∧ SerialInterface.written w' = SerialInterface.written w
  end.
Proof.
  intros Hidle. unfold receive_message, bytes_of_int.
  case_bool_decide as Hrange; cbn; [|done].
  pose proof (bytes_call env σ self SPI_RECEIVE
                [byte_of_ascii (ascii_of_nat (Z.to_nat receive_length))] Hidle)
    as [Hresult Hstate].
  destruct (SharedSerial.handle_command env self SPI_RECEIVE _ σ) as [σ' outcome].
  done.
Qed.

Lemma X15_receive_message_never_writes_witness :
  match receive_message silent spi_channel 4 spi_world with
  | None => ¬ (0 ≤ 4 < 256)%Z
  | Some (σ', outcome) =>
      (0 ≤ 4 < 256)%Z
      ∧ outcome = Ok (envelope ERROR (VDict {[ "error" := "No response from MCU" ]}))
      ∧ ∃ w w',
          interfaces spi_world !! SharedSerial.serial_interface spi_channel = Some w
          ∧ interfaces σ' !! SharedSerial.serial_interface spi_channel = Some w'
          ∧ SerialInterface.thread w' = SerialInterface.Terminated (Some TypeError)
          ∧ SerialInterface.written w' = SerialInterface.written w
  end.
Proof.
  apply (X15_receive_message_never_writes silent spi_world spi_channel 4).
  reflexivity.
Defined.

(** * Properties of the firmware *)

(** ** The hexadecimal codec *)

Section Hex.

Import Mcu.

(** The two digits of a byte: neither is a separator or white space,
    and together they decode to the byte. *)
Lemma hexlify_byte_spec (b : Init.Byte.byte) :
  ∃ hi lo,
    hexlify_byte b = String hi (String lo "")
    ∧ Py.isspace hi = false ∧ Py.isspace lo = false
    ∧ hi ≠ ":"%char ∧ lo ≠ ":"%char
    ∧ hi ≠ " "%char ∧ lo ≠ " "%char
    ∧ ∃ h l, hexval hi = Some h ∧ hexval lo = Some l
             ∧ byte_of_ascii (ascii_of_nat (16 * h + l)) = b.
Proof.
  destruct b; do 2 eexists; (split; [reflexivity|]);
    repeat (split; [done|]); by do 2 eexists.
Qed.

Lemma unhexlify_hexlify_byte (b : Init.Byte.byte) (rest : string) :
  unhexlify (hexlify_byte b +:+ rest) =
  match unhexlify rest with
  | Some bytes => Some (b :: bytes)
  | None => None
  end.
Proof.
  destruct (hexlify_byte_spec b)
    as (hi & lo & -> & _ & _ & _ & _ & _ & _ & h & l & Hh & Hl & Hb).
  change (String hi (String lo "") +:+ rest) with (String hi (String lo rest)).
  cbn [unhexlify]. by rewrite Hh, Hl, Hb.
Qed.

Lemma unhexlify_pairs (data : list Init.Byte.byte) :
  unhexlify (Py.join "" (hexlify_byte <$> data)) = Some data.
Proof.
  induction data as [|b data IH]; [done|].
  destruct data as [|b' data].
  - cbn [fmap list_fmap Py.join].
    replace (hexlify_byte b) with (hexlify_byte b +:+ "").
    + by rewrite unhexlify_hexlify_byte.
    + by destruct (hexlify_byte_spec b) as (hi & lo & -> & _).
  - change (Py.join "" (hexlify_byte <$> b :: b' :: data))
      with (hexlify_byte b +:+ "" +:+ Py.join "" (hexlify_byte <$> b' :: data)).
    rewrite unhexlify_hexlify_byte.
    change ("" +:+ Py.join "" (hexlify_byte <$> b' :: data))
      with (Py.join "" (hexlify_byte <$> b' :: data)).
    by rewrite IH.
Qed.

(** Tokens of two digits are not padded. *)
Lemma pad_pairs (data : list Init.Byte.byte) :
  (λ hex_value : string,
     if Nat.odd (String.length hex_value) then "0" +:+ hex_value else hex_value)
  <$> (hexlify_byte <$> data) = hexlify_byte <$> data.
Proof.
  induction data as [|b data IH]; [done|].
  rewrite !fmap_cons, IH.
  by destruct (hexlify_byte_spec b) as (hi & lo & -> & _).
Qed.

Lemma hexstr_to_bytes_pairs (data : list Init.Byte.byte) :
  hexstr_to_bytes (AList (hexlify_byte <$> data)) = Some data.
Proof. unfold hexstr_to_bytes. rewrite pad_pairs. apply unhexlify_pairs. Qed.

(** One character of a string at a time. *)
Lemma split_on_ne (sep c : ascii) (s : string) :
  c ≠ sep →
  Str.split_on sep (String c s) =
  match Str.split_on sep s with
  | piece :: pieces => String c piece :: pieces
  | [] => [String c ""]
  end.
Proof. intros Hne. cbn [Str.split_on]. by rewrite bool_decide_eq_false_2. Qed.

Lemma split_on_eq (sep : ascii) (s : string) :
  Str.split_on sep (String sep s) = "" :: Str.split_on sep s.
Proof. cbn [Str.split_on]. by rewrite bool_decide_eq_true_2. Qed.

Lemma contains_ne (sep c : ascii) (s : string) :
  c ≠ sep → Str.contains sep (String c s) = Str.contains sep s.
Proof. intros Hne. cbn [Str.contains]. by rewrite bool_decide_eq_false_2. Qed.

Lemma contains_eq (sep : ascii) (s : string) :
  Str.contains sep (String sep s) = true.
Proof. cbn [Str.contains]. by rewrite bool_decide_eq_true_2. Qed.

Lemma replace_ne (old new c : ascii) (s : string) :
  c ≠ old →
  Str.replace old new (String c s) = String c (Str.replace old new s).
Proof. intros Hne. cbn [Str.replace]. by rewrite bool_decide_eq_false_2. Qed.

Lemma replace_eq (old new : ascii) (s : string) :
  Str.replace old new (String old s) = String new (Str.replace old new s).
Proof. cbn [Str.replace]. by rewrite bool_decide_eq_true_2. Qed.

(** [hexlify] of two bytes or more, spelled out. *)
Lemma hexlify_cons (sep : ascii) (b b' : Init.Byte.byte)
    (data : list Init.Byte.byte) (hi lo : ascii) :
  hexlify_byte b = String hi (String lo "") →
  hexlify (String sep "") (b :: b' :: data) =
  String hi (String lo (String sep (hexlify (String sep "") (b' :: data)))).
Proof.
  intros Hb.
  change (hexlify (String sep "") (b :: b' :: data))
    with (hexlify_byte b +:+ String sep "" +:+ hexlify (String sep "") (b' :: data)).
  by rewrite Hb.
Qed.

(** The text of [hexlify] with a separator, cut at the separator. *)
Lemma split_on_hexlify (data : list Init.Byte.byte) :
  data ≠ [] → Str.split_on ":" (hexlify ":" data) = hexlify_byte <$> data.
Proof.
  induction data as [|b data IH]; [done|]. intros _.
  destruct (hexlify_byte_spec b)
    as (hi & lo & Hb & _ & _ & Hhi & Hlo & _).
  destruct data as [|b' data].
  - cbn [hexlify fmap list_fmap]. rewrite Hb.
    by rewrite !split_on_ne.
  - rewrite (hexlify_cons ":" b b' data hi lo Hb).
    rewrite !split_on_ne, split_on_eq by done.
    rewrite IH by done. rewrite (fmap_cons _ b), Hb. done.
Qed.

Lemma replace_hexlify (data : list Init.Byte.byte) :
  Str.replace " " ":" (hexlify " " data) = hexlify ":" data.
Proof.
  induction data as [|b data IH]; [done|].
  destruct (hexlify_byte_spec b)
    as (hi & lo & Hb & _ & _ & _ & _ & Hhi & Hlo & _).
  destruct data as [|b' data].
  - cbn [hexlify]. rewrite Hb. by rewrite !replace_ne.
  - rewrite (hexlify_cons " " b b' data hi lo Hb).
    rewrite (hexlify_cons ":" b b' data hi lo Hb).
    rewrite !replace_ne, replace_eq by done. by rewrite IH.
Qed.

Lemma contains_hexlify (sep : ascii) (data : list Init.Byte.byte) :
  sep = " "%char ∨ sep = ":"%char →
  Str.contains sep (hexlify (String sep "") data) = (1 <? length data).
Proof.
  intros Hsep. induction data as [|b data IH]; [done|].
  destruct (hexlify_byte_spec b)
    as (hi & lo & Hb & _ & _ & Hhi & Hlo & Hhi' & Hlo' & _).
  assert (hi ≠ sep ∧ lo ≠ sep) as [? ?] by (destruct Hsep as [-> | ->]; done).
  destruct data as [|b' data].
  - cbn [hexlify]. rewrite Hb. by rewrite !contains_ne.
  - rewrite (hexlify_cons sep b b' data hi lo Hb).
    do 2 rewrite contains_ne by done. by rewrite contains_eq.
Qed.

Lemma no_colon_in_spaced (data : list Init.Byte.byte) :
  Str.contains ":" (hexlify " " data) = false.
Proof.
  induction data as [|b data IH]; [done|].
  destruct (hexlify_byte_spec b)
    as (hi & lo & Hb & _ & _ & Hhi & Hlo & _).
  destruct data as [|b' data].
  - cbn [hexlify]. rewrite Hb. by rewrite !contains_ne.
  - rewrite (hexlify_cons " " b b' data hi lo Hb).
    by rewrite !contains_ne.
Qed.

End Hex.

(** X16.  Decoding undoes encoding: for every byte sequence, the text
    [bytes_to_hex] produces (two lower-case digits per byte, separated
    by single spaces) is turned back into the same bytes by
    [hexstr_to_bytes]. *)
Theorem X16_hex_round_trip (data : list Init.Byte.byte) :
  ∃ text,
    Mcu.bytes_to_hex (Mcu.DBytes data) = Some text
    ∧ Mcu.hexstr_to_bytes (Mcu.AStr text) = Some data.
Proof.
  exists (Mcu.hexlify " " data). split; [done|].
  unfold Mcu.hexstr_to_bytes.
  rewrite (contains_hexlify " " data) by by left.
  destruct data as [|b [|b' data]].
  - done.
  - change (1 <? length [b]) with false. cbv iota.
    rewrite no_colon_in_spaced.
    change [Mcu.hexlify " " [b]] with (Mcu.hexlify_byte <$> [b]).
    rewrite pad_pairs. apply unhexlify_pairs.
  - change (1 <? length (b :: b' :: data)) with true. cbv iota.
    rewrite replace_hexlify, (contains_hexlify ":") by by right.
    change (1 <? length (b :: b' :: data)) with true. cbv iota.
    rewrite split_on_hexlify by done.
    rewrite pad_pairs. apply unhexlify_pairs.
Qed.

Section HexTokens.

Import Mcu.

Lemma split_hexlify (data : list Init.Byte.byte) :
  Py.split (hexlify " " data) = hexlify_byte <$> data.
Proof.
  unfold Py.split. induction data as [|b data IH]; [done|].
  destruct (hexlify_byte_spec b) as (hi & lo & Hb & Hhi & Hlo & _).
  destruct data as [|b' data].
  - cbn [hexlify fmap list_fmap]. rewrite Hb.
    cbn [Py.split_from]. by rewrite Hhi, Hlo.
  - rewrite (hexlify_cons " " b b' data hi lo Hb).
    cbn [Py.split_from]. rewrite Hhi, Hlo.
    replace (Py.isspace " ") with true by done.
    rewrite IH, (fmap_cons _ b), Hb. done.
Qed.

Lemma join_hexlify (data : list Init.Byte.byte) :
  Py.join " " (hexlify_byte <$> data) = hexlify " " data.
Proof.
  induction data as [|b data IH]; [done|].
  destruct data as [|b' data]; [done|].
  change (Py.join " " (hexlify_byte <$> b :: b' :: data))
    with (hexlify_byte b +:+ " " +:+ Py.join " " (hexlify_byte <$> b' :: data)).
  by rewrite IH.
Qed.

(** Every character of a string that [unhexlify] accepts is a
    hexadecimal digit. *)
Lemma unhexlify_digits (s : string) :
  (∀ bytes c, unhexlify s = Some bytes → Str.contains c s = true →
              is_Some (hexval c))
  ∧ (∀ a bytes c, unhexlify (String a s) = Some bytes →
                  Str.contains c (String a s) = true → is_Some (hexval c)).
Proof.
  induction s as [|c0 s [IH0 IH1]].
  - split; [done|]. intros a bytes c Hun. done.
  - split; [apply IH1|].
    intros a bytes c Hun Hc. cbn [unhexlify] in Hun.
    destruct (hexval a) as [h|] eqn:Ha; [|done].
    destruct (hexval c0) as [l|] eqn:Hc0; [|done].
    destruct (unhexlify s) as [bytes'|] eqn:Hs; [|done].
    cbn [Str.contains] in Hc.
    apply orb_true_iff in Hc as [Hc|Hc].
    { apply bool_decide_eq_true in Hc as <-. by rewrite Ha. }
    apply orb_true_iff in Hc as [Hc|Hc].
    { apply bool_decide_eq_true in Hc as <-. by rewrite Hc0. }
    by eapply IH0.
Qed.

Lemma contains_app (c : ascii) (a b : string) :
  Str.contains c (a +:+ b) = Str.contains c a || Str.contains c b.
Proof.
  induction a as [|c' a IH]; [done|].
  change (Str.contains c (String c' a +:+ b))
    with (bool_decide (c' = c) || Str.contains c (a +:+ b)).
  by rewrite IH, orb_assoc.
Qed.

Lemma contains_join (c : ascii) (pieces : list string) (piece : string) :
  piece ∈ pieces → Str.contains c piece = true →
  Str.contains c (Py.join "" pieces) = true.
Proof.
  intros Hin Hc. induction Hin as [piece pieces|piece piece' pieces Hin IH].
  - destruct pieces as [|piece' pieces]; [done|].
    change (Py.join "" (piece :: piece' :: pieces))
      with (piece +:+ "" +:+ Py.join "" (piece' :: pieces)).
    by rewrite contains_app, Hc.
  - destruct pieces as [|piece'' pieces]; [by apply elem_of_nil in Hin|].
    change (Py.join "" (piece' :: piece'' :: pieces))
      with (piece' +:+ "" +:+ Py.join "" (piece'' :: pieces)).
    rewrite contains_app. change ("" +:+ ?x) with x.
    rewrite IH by done. by rewrite orb_true_r.
Qed.

Lemma replace_no_old (s : string) :
  Str.contains " " (Str.replace " " ":" s) = false.
Proof.
  induction s as [|c s IH]; [done|]. cbn [Str.replace].
  case_bool_decide; by rewrite contains_ne.
Qed.

Lemma replace_absent (s : string) :
  Str.contains " " s = false → Str.replace " " ":" s = s.
Proof.
  induction s as [|c s IH]; [done|]. cbn [Str.contains Str.replace].
  intros Hc. apply orb_false_iff in Hc as [Hc Hs].
  rewrite Hc. by rewrite IH.
Qed.

End HexTokens.

(** X17.  The command path decodes what the reply path encodes: the
    tokens of the text [bytes_to_hex] produces, passed as a list the
    way [handle_cmd] passes the arguments of [SPI_SEND], are decoded by
    [hexstr_to_bytes] to the same bytes. *)
Theorem X17_hex_tokens_round_trip (data : list Init.Byte.byte) :
  Mcu.hexstr_to_bytes (Mcu.AList (Py.split (Mcu.hexlify " " data))) = Some data.
Proof. rewrite split_hexlify. apply hexstr_to_bytes_pairs. Qed.

(** X18.  A token that contains a colon is never decoded on the list
    path: there the tokens are not cut at colons, the colon reaches
    [unhexlify], and [hexstr_to_bytes] raises.  So the arguments of a
    command line such as [SPI_SEND de:ad] are rejected. *)
Theorem X18_colon_token_rejected (tokens : list string) (token : string) :
  token ∈ tokens →
  Str.contains ":" token = true →
  Mcu.hexstr_to_bytes (Mcu.AList tokens) = None.
Proof.
  intros Hin Hcolon. unfold Mcu.hexstr_to_bytes.
  destruct (Mcu.unhexlify _) as [bytes|] eqn:Hun; [|done].
  destruct (unhexlify_digits
              (Py.join ""
                 ((λ hex_value : string,
                     if Nat.odd (String.length hex_value)
                     then "0" +:+ hex_value else hex_value) <$> tokens)))
    as [Hdigits _].
  destruct (Hdigits bytes ":"%char Hun) as [n Hn]; [|done].
  eapply contains_join.
  - apply list_elem_of_fmap. by exists token.
  - cbv beta. destruct (Nat.odd _); [|done].
    by rewrite contains_app, Hcolon, orb_true_r.
Qed.

Lemma X18_colon_token_rejected_witness :
  Mcu.hexstr_to_bytes (Mcu.AList ["de:ad"]) = None.
Proof.
  apply (X18_colon_token_rejected ["de:ad"] "de:ad").
  - by apply list_elem_of_singleton.
  - reflexivity.
Defined.

(** X19.  On the text path spaces and colons are the same separator:
    [hexstr_to_bytes] gives the same result, bytes or exception, for a
    text and for that text with every space replaced by a colon. *)
Theorem X19_separators_interchangeable (s : string) :
  Mcu.hexstr_to_bytes (Mcu.AStr s) =
  Mcu.hexstr_to_bytes (Mcu.AStr (Str.replace " " ":" s)).
Proof.
  unfold Mcu.hexstr_to_bytes. rewrite replace_no_old.
  destruct (Str.contains " " s) eqn:Hspace; [done|].
  by rewrite replace_absent.
Qed.

(** X20.  A value of one digit is read with a leading zero: the text
    made of a single hexadecimal digit, of either case, decodes to the
    one byte whose value is that digit. *)
Theorem X20_single_digit_padded (c : ascii) (n : nat) :
  Mcu.hexval c = Some n →
  Mcu.hexstr_to_bytes (Mcu.AStr (String c "")) =
  Some [byte_of_ascii (ascii_of_nat n)].
Proof.
  intros Hc.
  assert (c ≠ " "%char ∧ c ≠ ":"%char) as [Hspace Hcolon]
    by (split; intros ->; discriminate Hc).
  unfold Mcu.hexstr_to_bytes.
  cbn [Str.contains]. rewrite (bool_decide_eq_false_2 (c = " "%char)) by done.
  cbn [orb Str.contains]. rewrite (bool_decide_eq_false_2 (c = ":"%char)) by done.
  cbn [orb fmap list_fmap String.length Nat.odd Nat.even negb Py.join].
  change ("0" +:+ String c "") with (String "0" (String c "")).
  cbn [Mcu.unhexlify]. rewrite Hc. done.
Qed.

Lemma X20_single_digit_padded_witness :
  Mcu.hexstr_to_bytes (Mcu.AStr "F") = Some [Init.Byte.x0f].
Proof.
  apply (X20_single_digit_padded "F" 15). reflexivity.
Defined.

Section Endings.

(** White space at the end of a line adds no token. *)
Lemma split_from_blank (ending : string) (word : list ascii) :
  forallb Py.isspace (list_ascii_of_string ending) = true →
  Py.split_from word ending = Py.flush word [].
Proof.
  revert word. induction ending as [|c ending IH]; intros word Hblank; [done|].
  cbn in Hblank. apply andb_true_iff in Hblank as [Hc Hblank].
  cbn [Py.split_from]. rewrite Hc. by rewrite (IH []).
Qed.

Lemma split_from_ending (s ending : string) (word : list ascii) :
  forallb Py.isspace (list_ascii_of_string ending) = true →
  Py.split_from word (s +:+ ending) = Py.split_from word s.
Proof.
  intros Hblank. revert word. induction s as [|c s IH]; intros word.
  - by apply split_from_blank.
  - change (String c s +:+ ending) with (String c (s +:+ ending)).
    cbn [Py.split_from]. by rewrite !IH.
Qed.

End Endings.

(** X21.  What the device reports as sent reaches the caller as it was
    encoded: for every non-empty byte sequence, the line the firmware
    prints for [SPI_SEND], with any line end of white space, is
    classified by the host as kind [SPI_SEND] with the text returned by
    [SpiInterface.send] as data. *)
Theorem X21_spi_send_reply_classified (data : list Init.Byte.byte)
    (ending : string) :
  data ≠ [] →
  forallb Py.isspace (list_ascii_of_string ending) = true →
  clean_response
    (Lines [Mcu.printed "SPI_SEND" (Mcu.send_reply data) +:+ ending]) =
  Ok (envelope SPI_SEND (VStr (Mcu.send_reply data))).
Proof.
  intros Hdata Hending.
  assert (Py.split (Mcu.printed "SPI_SEND" (Mcu.send_reply data) +:+ ending)
          = name SPI_SEND :: "Sent:" :: (Mcu.hexlify_byte <$> data)) as Hsplit.
  { unfold Py.split. rewrite split_from_ending by done.
    fold (Py.split (Mcu.printed "SPI_SEND" (Mcu.send_reply data))).
    unfold Mcu.printed. rewrite (split_verb_line SPI_SEND). f_equal.
    unfold Mcu.send_reply, Py.split.
    change ("Sent: " +:+ Mcu.hexlify " " data)
      with ("Sent:" +:+ String " " (Mcu.hexlify " " data)).
    rewrite split_from_app by done. cbn [Py.split_from].
    replace (Py.isspace " ") with true by done.
    fold (Py.split (Mcu.hexlify " " data)). by rewrite split_hexlify. }
  rewrite (clean_response_member SPI_SEND _ [] _ Hsplit) by done.
  cbn [length Nat.ltb Nat.leb]. do 3 f_equal.
  destruct data as [|b data]; [done|].
  change (Py.join " " ("Sent:" :: (Mcu.hexlify_byte <$> b :: data)))
    with ("Sent:" +:+ " " +:+ Py.join " " (Mcu.hexlify_byte <$> b :: data)).
  by rewrite join_hexlify.
Qed.

Lemma X21_spi_send_reply_classified_witness :
  clean_response (Lines ["SPI_SEND Sent: de ad" +:+ CRLF]) =
  Ok (envelope SPI_SEND (VStr "Sent: de ad")).
Proof.
  apply (X21_spi_send_reply_classified [Init.Byte.xde; Init.Byte.xad] CRLF).
  - discriminate.
  - reflexivity.
Defined.

(** ** The alive LED *)

Section Led.

Import Mcu.LedHandler.

Lemma update_counter (n : nat) (self : t) :
  counter self = 0 → counter (Nat.iter n update self) = n mod 20.
Proof.
  intros Hzero. induction n as [|n IH]; [done|].
  rewrite Nat.iter_succ.
  change (counter (update (Nat.iter n update self)))
    with ((counter (Nat.iter n update self) + 1) mod 20).
  rewrite IH, Nat.Div0.add_mod_idemp_l. by rewrite Nat.add_1_r.
Qed.

(** One more tick, seen from the counter before it. *)
Lemma update_led (m : nat) (led : bool) :
  m < 20 → led = (15 <=? m) →
  led_value (update (mk led m)) = (15 <=? (m + 1) mod 20).
Proof.
  intros Hm ->. unfold update. cbn [led_value counter].
  do 20 (destruct m as [|m]; [reflexivity|]). lia.
Qed.

End Led.

(** X22.  The alive LED follows the tick count alone.  Starting from a
    counter of zero, after [n] calls of [update] the counter is
    [n mod 20], and from the fifteenth call on the LED is lit exactly
    when that counter is at least 15, whatever the LED showed at the
    start: it is lit for five ticks out of every twenty. *)
Theorem X22_led_follows_counter (n : nat) (led0 : bool) :
  15 ≤ n →
  Mcu.LedHandler.counter
    (Nat.iter n Mcu.LedHandler.update (Mcu.LedHandler.mk led0 0)) = n mod 20
  ∧ Mcu.LedHandler.led_value
      (Nat.iter n Mcu.LedHandler.update (Mcu.LedHandler.mk led0 0))
    = (15 <=? n mod 20).
Proof.
  intros Hn. split; [by apply update_counter|].
  induction n as [|n IH]; [lia|].
  destruct (decide (n = 14)) as [->|Hne]; [by destruct led0|].
  rewrite Nat.iter_succ.
  pose proof (update_counter n (Mcu.LedHandler.mk led0 0) eq_refl) as Hcounter.
  destruct (Nat.iter n Mcu.LedHandler.update (Mcu.LedHandler.mk led0 0))
    as [led m] eqn:Hiter.
  cbn [Mcu.LedHandler.counter Mcu.LedHandler.led_value] in Hcounter, IH.
  rewrite (update_led m led).
  - subst m. rewrite Nat.Div0.add_mod_idemp_l. by rewrite Nat.add_1_r.
  - subst m. by apply Nat.mod_upper_bound.
  - subst m. apply IH. lia.
Qed.

Lemma X22_led_follows_counter_witness :
  Mcu.LedHandler.counter
    (Nat.iter 37 Mcu.LedHandler.update (Mcu.LedHandler.mk false 0)) = 17
  ∧ Mcu.LedHandler.led_value
      (Nat.iter 37 Mcu.LedHandler.update (Mcu.LedHandler.mk false 0)) = true.
Proof.
  apply (X22_led_follows_counter 37 false). lia.
Defined.

(** ** Relays and pins *)

Section Pins.

Import Mcu.

Lemma index_in_range (len n : nat) :
  n < len → index len (Z.of_nat n) = Some n.
Proof.
  intros Hn. unfold index. rewrite bool_decide_eq_true_2 by lia.
  by rewrite Nat2Z.id.
Qed.

Lemma index_negative (len : nat) (i : Z) :
  (i < 0)%Z →
  index len i =
  if bool_decide (- Z.of_nat len ≤ i)%Z
  then Some (Z.to_nat (Z.of_nat len + i)) else None.
Proof.
  intros Hi. unfold index. rewrite bool_decide_eq_false_2 by lia.
  repeat case_bool_decide; try done; lia.
Qed.

End Pins.

(** X23.  A relay reads back what was set: setting relay [n] of the
    board to a level answers with the number and the level, changes no
    other relay, and a [read] of relay [n] afterwards gives the same
    answer. *)
Theorem X23_relay_set_then_read (dio_relays : list Mcu.DigitalInOut)
    (n : nat) (level : bool) :
  n < length dio_relays →
  ∃ relays',
    Mcu.Relay.set_or_clear (Z.of_nat n) level dio_relays =
      Some (Str.of_int (Z.of_nat n) +:+ " " +:+ Str.of_bool level, relays')
    ∧ Mcu.Relay.read (Z.of_nat n) relays' =
      Some (Str.of_int (Z.of_nat n) +:+ " " +:+ Str.of_bool level)
    ∧ length relays' = length dio_relays
    ∧ ∀ m, m ≠ n → relays' !! m = dio_relays !! m.
Proof.
  intros Hn. exists (alter (Mcu.set_value level) n dio_relays).
  destruct (lookup_lt_is_Some_2 dio_relays n Hn) as [pin Hpin].
  split; [|split; [|split]].
  - unfold Mcu.Relay.set_or_clear.
    rewrite bool_decide_eq_true_2 by lia. by rewrite index_in_range.
  - unfold Mcu.Relay.read. rewrite length_alter.
    rewrite bool_decide_eq_true_2 by lia. rewrite index_in_range by done.
    cbn. by rewrite list_lookup_alter_eq, Hpin.
  - apply length_alter.
  - intros m Hm. by apply list_lookup_alter_ne.
Qed.

Lemma X23_relay_set_then_read_witness :
  ∃ relays',
    Mcu.Relay.set_or_clear 1 true
      [Mcu.Build_DigitalInOut Mcu.OUTPUT false;
       Mcu.Build_DigitalInOut Mcu.OUTPUT false] =
      Some ("1 True", relays')
    ∧ Mcu.Relay.read 1 relays' = Some "1 True"
    ∧ length relays' = 2
    ∧ ∀ m, m ≠ 1 →
        relays' !! m =
        [Mcu.Build_DigitalInOut Mcu.OUTPUT false;
         Mcu.Build_DigitalInOut Mcu.OUTPUT false] !! m.
Proof.
  apply (X23_relay_set_then_read
           [Mcu.Build_DigitalInOut Mcu.OUTPUT false;
            Mcu.Build_DigitalInOut Mcu.OUTPUT false] 1 true).
  cbn. lia.
Defined.

(** X24.  A negative relay number is not refused.  The bound test
    accepts it, and the list is then indexed from its end: a number
    from [-len] to [-1] sets relay [len + number] and is answered with
    the negative number and the level; a number below [-len] raises
    [IndexError]. *)
Theorem X24_negative_relay_number (dio_relays : list Mcu.DigitalInOut)
    (pin_num : Z) (level : bool) :
  (pin_num < 0)%Z →
  Mcu.Relay.set_or_clear pin_num level dio_relays =
  if bool_decide (- Z.of_nat (length dio_relays) ≤ pin_num)%Z
  then Some (Str.of_int pin_num +:+ " " +:+ Str.of_bool level,
             alter (Mcu.set_value level)
               (Z.to_nat (Z.of_nat (length dio_relays) + pin_num)) dio_relays)
  else None.
Proof.
  intros Hneg. unfold Mcu.Relay.set_or_clear.
  rewrite bool_decide_eq_true_2 by lia. rewrite index_negative by done.
  by case_bool_decide.
Qed.

Lemma X24_negative_relay_number_witness :
  Mcu.Relay.set_or_clear (-1) true
    [Mcu.Build_DigitalInOut Mcu.OUTPUT false;
     Mcu.Build_DigitalInOut Mcu.OUTPUT false] =
  Some ("-1 True",
        [Mcu.Build_DigitalInOut Mcu.OUTPUT false;
         Mcu.Build_DigitalInOut Mcu.OUTPUT true]).
Proof.
  apply (X24_negative_relay_number
           [Mcu.Build_DigitalInOut Mcu.OUTPUT false;
            Mcu.Build_DigitalInOut Mcu.OUTPUT false] (-1) true).
  lia.
Defined.

(** ** Across the link *)

(** X25.  A refusal of the firmware is not classified as an error.  The
    firmware reports a refused command by printing the command name
    followed by a reply that starts with [ERROR:]; the marker is then
    the second token of the line, the assignments it triggers in the
    classifier are overwritten, and the host returns an envelope of the
    command's own kind whose data starts with [ERROR:]. *)
Theorem X25_refusal_classified_under_verb (V : SerialCommand) (reason : string) :
  clean_response (Lines [Mcu.printed (name V) ("ERROR: " +:+ reason)]) =
  Ok (envelope V (VStr (Py.join " " ("ERROR:" :: Py.split reason)))).
Proof.
  assert (Py.split (Mcu.printed (name V) ("ERROR: " +:+ reason))
          = name V :: "ERROR:" :: Py.split reason) as Hsplit.
  { unfold Mcu.printed. by rewrite split_verb_line. }
  rewrite (clean_response_member V _ [] _ Hsplit); [done|].
  apply not_contains_take2; [by destruct V|done].
Qed.

Section Info.

Lemma single_line_no_extension (line : string) (response : gmap string value) :
  clean_response (Lines [line]) = Ok response → response !! "extension" = None.
Proof.
  unfold clean_response. change (items (Lines [line])) with [line].
  cbv beta iota zeta. change (1 <? length [line]) with false. cbv iota.
  destruct (Py.contains "EXCEPTION:" (take 2 (Py.split line))).
  - cbn. by intros [= <-].
  - destruct (Py.split line) as [|field0 fields]; [done|].
    cbn. destruct (by_name field0); cbn; [|done]. by intros [= <-].
Qed.

End Info.

(** X26.  [DigitalIO.info] returns the lines after the first.  On a
    channel at rest, when the reply to [DIO_LIST] (after the echo, if
    any) is a first line that the classifier accepts followed by more
    lines, [info] returns those lines joined by newlines, each with its
    own line end, and the empty string when there are none. *)
Theorem X26_info_returns_extension (env : link) (σ : world)
    (self : SharedSerial.t) (first line : string) (others more : list string)
    (k : nat) (response : gmap string value) :
  idle σ self = true →
  port_open env = true →
  k < 20 →
  (∀ j, j < k → in_waiting env j = None) →
  in_waiting env k = Some (first :: others) →
  (if decide (first = command_line DIO_LIST "") then others else first :: others)
    = line :: more →
  clean_response (Lines [line]) = Ok response →
  (DigitalIO.info env self σ).2 = Ok (VStr (Py.join LF more)).
Proof.
  intros Hidle Hopen Hk Hquiet Harrive Hreplied Hline.
  pose proof (handle_command_reply env σ self DIO_LIST "" first others k
                Hidle Hopen Hk Hquiet Harrive) as Hreply.
  rewrite Hreplied in Hreply. unfold DigitalIO.info.
  destruct (SharedSerial.handle_command env self DIO_LIST (PStr "") σ)
    as [σ' outcome].
  cbn [snd] in Hreply |- *. rewrite Hreply.
  destruct more as [|line' more].
  - rewrite Hline. cbn. by rewrite (single_line_no_extension line response).
  - rewrite clean_response_rest, Hline by done. cbn.
    by rewrite lookup_insert_eq.
Qed.

Lemma X26_info_returns_extension_witness :
  (DigitalIO.info
     (Build_link true
        (λ k, if k =? 0
              then Some ["DIO_LIST " +:+ CRLF; "DIO_LIST " +:+ CRLF;
                         "    0 GP0 in False" +:+ CRLF;
                         "    1 GP1 out True" +:+ CRLF]
              else None) [])
     dio_channel dio_world).2 =
  Ok (VStr (Py.join LF ["    0 GP0 in False" +:+ CRLF; "    1 GP1 out True" +:+ CRLF])).
Proof.
  apply (X26_info_returns_extension
           (Build_link true
              (λ k, if k =? 0
                    then Some ["DIO_LIST " +:+ CRLF; "DIO_LIST " +:+ CRLF;
                               "    0 GP0 in False" +:+ CRLF;
                               "    1 GP1 out True" +:+ CRLF]
                    else None) [])
           dio_world dio_channel
           ("DIO_LIST " +:+ CRLF) ("DIO_LIST " +:+ CRLF)
           ["DIO_LIST " +:+ CRLF; "    0 GP0 in False" +:+ CRLF;
            "    1 GP1 out True" +:+ CRLF]
           ["    0 GP0 in False" +:+ CRLF; "    1 GP1 out True" +:+ CRLF]
           0 (envelope DIO_LIST (VStr ""))).
  - reflexivity.
  - reflexivity.
  - lia.
  - intros j Hj. lia.
  - reflexivity.
  - reflexivity.
  - reflexivity.
Defined.
